(** * TwitterApiClient: a shallow embedding of [src/services/twitter/apiClient.ts]

    The client validates a search request, issues one authenticated GET
    request, reports failures on the console and re-throws them, and offers a
    separate transform ([processResponse]) from the provider's raw JSON body
    to a list of simplified tweet objects.

    The embedding follows the TypeScript source method by method.  Dynamic
    values are an inductive type, strings are sequences of UTF-16 code
    units, console output and dispatched requests are threaded through an
    explicit world, and [throw]/[try]/[catch] are a small exception monad. *)

From Stdlib Require Import ZArith NArith QArith List String Ascii Bool Lia DecimalString.
From stdpp Require Import base option list gmap.

(** ** Strings

    An ECMAScript string is a finite sequence of 16-bit code units.  Code
    units are kept as [N]; literals of the source are written [lit "..."]. *)

Abbreviation jsstring := (list N).

Definition lit (s : string) : jsstring :=
  List.map N_of_ascii (list_ascii_of_string s).
Arguments lit s%_string : simpl never.

(** [WhiteSpace] and [LineTerminator] code units, the set that
    [String.prototype.trim] strips (ECMA-262, TrimString). *)
Definition isWhiteSpace (c : N) : bool :=
  ((9 <=? c) && (c <=? 13)              (* TAB, LF, VT, FF, CR *)
   || (c =? 32)                         (* SPACE *)
   || (c =? 160)                        (* NO-BREAK SPACE *)
   || (c =? 5760)                       (* U+1680 *)
   || ((8192 <=? c) && (c <=? 8202))    (* U+2000 .. U+200A *)
   || (c =? 8232) || (c =? 8233)        (* U+2028, U+2029 *)
   || (c =? 8239)                       (* U+202F *)
   || (c =? 8287)                       (* U+205F *)
   || (c =? 12288)                      (* U+3000 *)
   || (c =? 65279))%N.                  (* U+FEFF *)

Fixpoint trimStart (s : jsstring) : jsstring :=
  match s with
  | [] => []
  | c :: rest => if isWhiteSpace c then trimStart rest else s
  end.

Definition trimEnd (s : jsstring) : jsstring := rev (trimStart (rev s)).

(** [s.trim()] *)
Definition trim (s : jsstring) : jsstring := trimEnd (trimStart s).

Fixpoint startsWith (s search : jsstring) : bool :=
  match search, s with
  | [], _ => true
  | _ :: _, [] => false
  | x :: search', c :: s' => (x =? c)%N && startsWith s' search'
  end.

(** [s.includes(search)] *)
Fixpoint includes (s search : jsstring) : bool :=
  startsWith s search ||
  match s with
  | [] => false
  | _ :: s' => includes s' search
  end.

(** [contains s t]: [t] occurs in [s] as a contiguous run of code units. *)
Definition contains (s t : list N) : Prop := exists a b, s = a ++ t ++ b.

(** ** Numbers

    A Number is NaN, an infinity or a finite value; both zeros are
    [Finite 0].  Only the comparisons with zero and the conversion to a
    string are used by the client, so finite values are kept as rationals. *)

Inductive number :=
| NaN
| Infinity (negative : bool)
| Finite (q : Q).

Definition zero : number := Finite 0.

(** [x <= y] *)
Definition number_leb (x y : number) : bool :=
  match x, y with
  | NaN, _ | _, NaN => false
  | Infinity true, _ => true
  | _, Infinity false => true
  | Infinity false, _ => false
  | Finite _, Infinity true => false
  | Finite p, Finite q => Qle_bool p q
  end.

(** [x < y] *)
Definition number_ltb (x y : number) : bool :=
  match x, y with
  | NaN, _ | _, NaN => false
  | _, Infinity true => false
  | Infinity true, _ => true
  | Infinity false, _ => false
  | Finite _, Infinity false => true
  | Finite p, Finite q => negb (Qle_bool q p)
  end.

(** ** Values

    [value] is what [JSON.parse] can produce, together with [undefined]:
    the shapes a raw response body (the [any] argument of
    [processResponse]) may take.  An object is a finite map from property
    names to values. *)

#[warnings="-register-all"]
Inductive value :=
| VUndefined
| VNull
| VBool (b : bool)
| VNumber (n : number)
| VString (s : jsstring)
| VArray (items : list value)
| VObject (props : gmap (list N) value).

(** An object literal [{ k1: v1, ..., kn: vn }]. *)
Definition object (props : list (list N * value)) : value :=
  VObject (list_to_map props).

(** ToBoolean: the test performed by [!v], [v || w] and [if (v)]. *)
Definition truthy (v : value) : bool :=
  match v with
  | VUndefined | VNull => false
  | VBool b => b
  | VNumber NaN => false
  | VNumber (Infinity _) => true
  | VNumber (Finite q) => negb (Qeq_bool q 0)
  | VString s => negb (Nat.eqb (length s) 0)
  | VArray _ | VObject _ => true
  end.

(** ** Completions: normal return or [throw] *)

Inductive completion (E A : Type) :=
| Normal (a : A)
| Throw (e : E).
Arguments Normal {E A} a.
Arguments Throw {E A} e.

#[export] Instance completion_ret {E} : MRet (completion E) := fun _ a => Normal a.
#[export] Instance completion_bind {E} : MBind (completion E) := fun _ _ k c =>
  match c with
  | Normal a => k a
  | Throw e => Throw e
  end.

(** The two TypeErrors the runtime raises in [processResponse]. *)
Inductive TypeError :=
| CannotReadProperties     (* property read on [undefined] or [null] *)
| NotAFunction.            (* call of a value that is not callable *)

(** [v.key] for the property names the client reads ([data], [id], [text],
    [created_at], [author_id], [public_metrics], [referenced_tweets]):
    none of them is supplied by the prototype of a string, number, boolean
    or array, so only an object can hold them. *)
Definition get_property (v : value) (key : jsstring)
    : completion TypeError value :=
  match v with
  | VUndefined | VNull => Throw CannotReadProperties
  | VObject props => Normal (default VUndefined (props !! key))
  | _ => Normal VUndefined
  end.

(** [a || b] on values *)
Definition or_else (a b : value) : value := if truthy a then a else b.

Fixpoint mapM {E A B} (f : A -> completion E B) (l : list A)
    : completion E (list B) :=
  match l with
  | [] => Normal []
  | x :: rest =>
      y ← f x;
      ys ← mapM f rest;
      Normal (y :: ys)
  end.

(** [receiver.map(callback)]: [Array.prototype.map] when the receiver is an
    array.  No other value of [value] has a callable [map] property (an
    object can have an own property of that name, but never a function). *)
Definition call_map (receiver : value)
    (callback : value -> completion TypeError value)
    : completion TypeError value :=
  match receiver with
  | VArray items =>
      results ← mapM callback items;
      Normal (VArray results)
  | _ => Throw NotAFunction
  end.

(** The arrow function of [processResponse], lines 98-105. *)
Definition simplify_tweet (tweet : value) : completion TypeError value :=
  id ← get_property tweet (lit "id");
  text ← get_property tweet (lit "text");
  created_at ← get_property tweet (lit "created_at");
  author_id ← get_property tweet (lit "author_id");
  public_metrics ← get_property tweet (lit "public_metrics");
  referenced_tweets ← get_property tweet (lit "referenced_tweets");
  Normal (object
    [ (lit "id", id);
      (lit "text", text);
      (lit "createdAt", created_at);
      (lit "authorId", author_id);
      (lit "metrics", public_metrics);
      (lit "referencedTweets", or_else referenced_tweets (VArray [])) ]).

(** [processResponse(responseData)], lines 91-106. *)
Definition processResponse (responseData : value)
    : completion TypeError value :=
  if negb (truthy responseData) then Normal (VArray [])
  else
    data ← get_property responseData (lit "data");
    if negb (truthy data) then Normal (VArray [])
    else call_map data simplify_tweet.

(** ** Vocabulary of the statements about [processResponse] *)

(** A value whose properties can be read: anything but [undefined] and
    [null]. *)
Definition readable (v : value) : Prop := v <> VUndefined /\ v <> VNull.

(** [v.key] on a readable value. *)
Definition property (v : value) (key : list N) : value :=
  match v with
  | VObject props => default VUndefined (props !! key)
  | _ => VUndefined
  end.

(** The object the arrow function builds from a readable tweet. *)
Definition simplified (tweet : value) : value :=
  object
    [ (lit "id", property tweet (lit "id"));
      (lit "text", property tweet (lit "text"));
      (lit "createdAt", property tweet (lit "created_at"));
      (lit "authorId", property tweet (lit "author_id"));
      (lit "metrics", property tweet (lit "public_metrics"));
      (lit "referencedTweets",
       or_else (property tweet (lit "referenced_tweets")) (VArray [])) ].

(** A raw record of the provider: an object. *)
Definition is_record (v : value) : Prop := exists props, v = VObject props.

(** A simplified tweet: an object with exactly the six properties of lines
    99-104, whose [referencedTweets] is truthy. *)
Definition is_post (v : value) : Prop :=
  exists id text createdAt authorId metrics referencedTweets,
    v = object [ (lit "id", id);
                 (lit "text", text);
                 (lit "createdAt", createdAt);
                 (lit "authorId", authorId);
                 (lit "metrics", metrics);
                 (lit "referencedTweets", referencedTweets) ]
    /\ truthy referencedTweets = true.

(** ** Thrown values, the console and the network

    Anything can be thrown and logged: an [Error] instance or a plain
    value.  An [Error] object carries the address it was allocated at, so
    that two objects with the same message remain distinct.  Its [message]
    is a string when the object comes from [new Error(...)], but the
    argument of [handleError] is [unknown] and anything may have been
    assigned to the property, so [message] is a value. *)

Inductive any :=
| ErrorObject (ref : nat) (message : value)
| Plain (v : value).

(** [x instanceof Error] *)
Definition instanceof_Error (x : any) : bool :=
  match x with
  | ErrorObject _ _ => true
  | Plain _ => false
  end.

(** The second argument of [httpx.fetch] is [{ headers: {...} }]. *)
Record Request := {
  url : jsstring;
  headers : list (list N * list N)
}.

(** What the client reads of a response.  [json] is the settlement of the
    promise returned by [response.json()]. *)
Record Response := {
  ok : bool;
  status : number;
  statusText : jsstring;
  json : completion any value
}.

Record World := {
  console : list (list any);     (* calls of [console.error], oldest first *)
  dispatched : list Request;     (* calls of [httpx.fetch], oldest first *)
  allocated : nat                (* [Error] objects created so far *)
}.

(** The environment of the module: the constant imported from
    [../../config/env], two conversions of the platform, the wording of the
    engine's TypeErrors, and the behaviour of the transport.  The transport
    answers a request knowing the requests dispatched before it, so that a
    provider may answer the same request differently from call to call. *)
Class Platform := {
  TWITTER_BEARER_TOKEN : option (list N);
  Number_toString : number -> list N;
  URLSearchParams_toString : list (list N * list N) -> list N;
  TypeError_message : TypeError -> list N;
  httpx_fetch : list Request -> Request -> completion any Response
}.

(** A constant of type [string | undefined] as a value, and its conversion
    inside a template literal. *)
Definition env_value (x : option (list N)) : value :=
  match x with
  | Some s => VString s
  | None => VUndefined
  end.

Definition env_toString (x : option (list N)) : jsstring :=
  match x with
  | Some s => s
  | None => lit "undefined"
  end.

(** Computations that read and extend the world and may throw. *)
Definition M (A : Type) : Type := World -> completion any A * World.

#[export] Instance M_ret : MRet M := fun _ a w => (Normal a, w).
#[export] Instance M_bind : MBind M := fun _ _ k c w =>
  match c w with
  | (Normal a, w') => k a w'
  | (Throw e, w') => (Throw e, w')
  end.

Definition throw {A} (e : any) : M A := fun w => (Throw e, w).

(** [try { body } catch (error) { handler }] *)
Definition try_catch {A} (body : M A) (handler : any -> M A) : M A := fun w =>
  match body w with
  | (Normal a, w') => (Normal a, w')
  | (Throw e, w') => handler e w'
  end.

Definition allocate (w : World) : World :=
  {| console := console w; dispatched := dispatched w;
     allocated := S (allocated w) |}.

Definition log (args : list any) (w : World) : World :=
  {| console := console w ++ [args]; dispatched := dispatched w;
     allocated := allocated w |}.

Definition send (request : Request) (w : World) : World :=
  {| console := console w; dispatched := dispatched w ++ [request];
     allocated := allocated w |}.

(** [new Error(message)] *)
Definition new_Error (message : jsstring) : M any := fun w =>
  (Normal (ErrorObject (allocated w) (VString message)), allocate w).

(** [console.error(...args)] *)
Definition console_error (args : list any) : M unit := fun w =>
  (Normal tt, log args w).

(** Settling a promise with [await]. *)
Definition await {A} (p : completion any A) : M A := fun w => (p, w).

Fixpoint jsstring_eqb (s t : jsstring) : bool :=
  match s, t with
  | [], [] => true
  | c :: s', d :: t' => (c =? d)%N && jsstring_eqb s' t'
  | _, _ => false
  end.

(** [receiver.includes(search)] with a string for [search]:
    [String.prototype.includes] on a string, [Array.prototype.includes] on
    an array (an entry matches when it is that very string).  [undefined]
    and [null] have no properties, and no other value of [value] has a
    callable [includes]. *)
Definition call_includes (receiver : value) (search : jsstring)
    : completion TypeError bool :=
  match receiver with
  | VString s => Normal (includes s search)
  | VArray items =>
      Normal (existsb (fun item =>
                         match item with
                         | VString s => jsstring_eqb s search
                         | _ => false
                         end) items)
  | VUndefined | VNull => Throw CannotReadProperties
  | _ => Throw NotAFunction
  end.

Section Client.
Context `{Platform}.

(** [await httpx.fetch(url, { headers })]: the request is recorded, then
    the transport resolves with a response or rejects. *)
Definition fetch (url : jsstring) (headers : list (list N * list N))
    : M Response := fun w =>
  let request := {| url := url; headers := headers |} in
  (httpx_fetch (dispatched w) request, send request w).

(** A step the engine evaluates: a TypeError it raises is a new [Error]
    object, thrown. *)
Definition evaluate {A} (c : completion TypeError A) : M A :=
  match c with
  | Normal a => mret a
  | Throw fault => error ← new_Error (TypeError_message fault); throw error
  end.

Record TwitterApiClient := {
  API_BASE_URL : jsstring;
  authorizationHeader : jsstring
}.

(** [new TwitterApiClient()], lines 10-20. *)
Definition constructor : M TwitterApiClient :=
  (if negb (truthy (env_value TWITTER_BEARER_TOKEN))
   then error ← new_Error (lit "TWITTER_BEARER_TOKEN is not configured");
        throw error
   else mret tt);;
  mret {| API_BASE_URL := lit "https://api.twitter.com/2";
          authorizationHeader :=
            lit "Bearer " ++ env_toString TWITTER_BEARER_TOKEN |}.

(** [handleError(error)], lines 72-84. *)
Definition handleError (error : any) : M unit :=
  console_error [Plain (VString (lit "Twitter API Error:")); error];;
  match error with
  | ErrorObject _ message =>
      has401 ← evaluate (call_includes message (lit "401"));
      unauthorized ←
        (if has401 : bool then mret true
         else evaluate (call_includes message (lit "Unauthorized")));
      if unauthorized : bool
      then console_error
             [Plain (VString (lit
                "Authentication failed. Please check your Twitter API credentials."))]
      else
        has429 ← evaluate (call_includes message (lit "429"));
        if has429 : bool
        then console_error
               [Plain (VString (lit "Rate limit exceeded. Please try again later."))]
        else mret tt
  | Plain _ => mret tt
  end.

(** The [try] block of [fetchTweets], lines 30-60. *)
Definition fetchTweets_try (this : TwitterApiClient) (query : jsstring)
    (limit : number) : M value :=
  (if negb (truthy (VString query)) || Nat.eqb (length (trim query)) 0
   then error ← new_Error (lit "Query parameter is required"); throw error
   else mret tt);;
  (if number_leb limit zero
   then error ← new_Error (lit "Limit must be a positive integer"); throw error
   else mret tt);;
  let params := URLSearchParams_toString
    [ (lit "query", trim query);
      (lit "max_results", Number_toString limit);
      (lit "tweet.fields",
       lit "created_at,author_id,public_metrics,referenced_tweets") ] in
  response ← fetch
    (API_BASE_URL this ++ lit "/tweets/search/recent?" ++ params)
    [ (lit "Authorization", authorizationHeader this);
      (lit "Content-Type", lit "application/json") ];
  (if negb (ok response)
   then error ← new_Error
          (lit "Twitter API error: " ++ Number_toString (status response)
             ++ lit " " ++ statusText response);
        throw error
   else mret tt);;
  await (json response).

(** [fetchTweets(query, limit)], lines 28-65. *)
Definition fetchTweets (this : TwitterApiClient) (query : jsstring)
    (limit : number) : M value :=
  try_catch (fetchTweets_try this query limit)
    (fun error => handleError error;; throw error).

(** The request built at lines 39-54. *)
Definition search_request (this : TwitterApiClient) (query : list N)
    (limit : number) : Request :=
  {| url := API_BASE_URL this ++ lit "/tweets/search/recent?"
            ++ URLSearchParams_toString
                 [ (lit "query", trim query);
                   (lit "max_results", Number_toString limit);
                   (lit "tweet.fields",
                    lit "created_at,author_id,public_metrics,referenced_tweets") ];
     headers := [ (lit "Authorization", authorizationHeader this);
                  (lit "Content-Type", lit "application/json") ] |}.

(** Whether [message.includes(search)] returns [true]. *)
Definition found (message : value) (search : list N) : bool :=
  match call_includes message search with
  | Normal b => b
  | Throw _ => false
  end.

(** The supplementary lines [handleError] prints after the raw error. *)
Definition supplementary (error : any) : list (list any) :=
  match error with
  | ErrorObject _ message =>
      if found message (lit "401") || found message (lit "Unauthorized")
      then [[Plain (VString (lit
              "Authentication failed. Please check your Twitter API credentials."))]]
      else if found message (lit "429")
      then [[Plain (VString (lit "Rate limit exceeded. Please try again later."))]]
      else []
  | Plain _ => []
  end.

(** The values [handleError] can classify: everything but an [Error]
    whose [message] has no [includes] method. *)
Definition classifiable (error : any) : bool :=
  match error with
  | ErrorObject _ (VString _ | VArray _) => true
  | ErrorObject _ _ => false
  | Plain _ => true
  end.

(** The TypeError of line 78 on a message without [includes]. *)
Definition includes_fault (message : value) : TypeError :=
  match message with
  | VUndefined | VNull => CannotReadProperties
  | _ => NotAFunction
  end.

(** The Fetch standard's [ok]: the status is in the range 200 to 299. *)
Definition is_2xx (status : number) : bool :=
  number_leb (Finite 200) status && number_leb status (Finite 299).

End Client.

(** ** The interface [TwitterClientInterface]

    [src/services/twitter/clientInterface.ts] declares three abstract
    methods; [TwitterApiClient] is its production implementation. *)

Module TwitterClientInterface.
Class t (Client : Type) := {
  fetchTweets : Client -> list N -> number -> M value;
  handleError : Client -> any -> M unit;
  processResponse : Client -> value -> completion TypeError value
}.
End TwitterClientInterface.

#[export] Instance TwitterApiClient_implements `{Platform}
    : TwitterClientInterface.t TwitterApiClient := {|
  TwitterClientInterface.fetchTweets := fetchTweets;
  TwitterClientInterface.handleError := fun _ => handleError;
  TwitterClientInterface.processResponse := fun _ => processResponse
|}.

(** ** A reference platform

    Concrete conversions, used to run the client on examples.
    [decimal] follows Number::toString of ECMA-262 (plain digits for a
    decimal exponent from -6 to 21, exponent notation outside) on the
    exact decimal expansion of the number; it prints a double the way the
    engine does when that expansion has at most 15 significant digits, as
    for every integer below 10^15 and for 0.5.
    [urlencoded] is the [application/x-www-form-urlencoded] serializer of
    the URL standard, which [URLSearchParams] uses.  The TypeError texts
    are V8's for line 78. *)

Definition decimal_of_Z (z : Z) : jsstring :=
  lit (DecimalString.NilZero.string_of_int (Z.to_int z)).

(** [num / den = m / 10^e] for the result [(m, e)] of [scale _ num den 0],
    when the expansion terminates within the fuel. *)
Fixpoint scale (fuel : nat) (num den e : Z) : Z * Z :=
  match fuel with
  | O => ((num / den)%Z, e)
  | S fuel' =>
      if (num mod den =? 0)%Z then ((num / den)%Z, e)
      else scale fuel' (10 * num)%Z den (e + 1)%Z
  end.

Fixpoint strip_zeros (fuel : nat) (m z : Z) : Z * Z :=
  match fuel with
  | O => (m, z)
  | S fuel' =>
      if (m mod 10 =? 0)%Z then strip_zeros fuel' (m / 10)%Z (z + 1)%Z
      else (m, z)
  end.

Definition zeros (n : Z) : jsstring := replicate (Z.to_nat n) 48%N.

(** The digits [d1 ... dk] of a number [0.d1...dk * 10^n]. *)
Definition digits_toString (digits : jsstring) (n : Z) : jsstring :=
  let k := Z.of_nat (length digits) in
  if ((k <=? n) && (n <=? 21))%Z then digits ++ zeros (n - k)
  else if ((0 <? n) && (n <=? 21))%Z then
    take (Z.to_nat n) digits ++ lit "." ++ drop (Z.to_nat n) digits
  else if ((-6 <? n) && (n <=? 0))%Z then lit "0." ++ zeros (- n) ++ digits
  else
    match digits with
    | [] => []
    | [d] => [d]
    | d :: rest => d :: lit "." ++ rest
    end ++ lit "e" ++ (if (n - 1 <? 0)%Z then lit "-" else lit "+")
        ++ decimal_of_Z (Z.abs (n - 1)).

Definition decimal (x : number) : jsstring :=
  match x with
  | NaN => lit "NaN"
  | Infinity false => lit "Infinity"
  | Infinity true => lit "-Infinity"
  | Finite q =>
      if (Qnum q =? 0)%Z then lit "0"
      else
        let (m, e) := scale 400 (Z.abs (Qnum q)) (Z.pos (Qden q)) 0 in
        let (m', z) := strip_zeros 400 m 0 in
        let digits := decimal_of_Z m' in
        (if (Qnum q <? 0)%Z then lit "-" else [])
          ++ digits_toString digits (Z.of_nat (length digits) + z - e)
  end.

Definition V8_TypeError_message (fault : TypeError) : jsstring :=
  match fault with
  | CannotReadProperties =>
      lit "Cannot read properties of undefined (reading 'includes')"
  | NotAFunction => lit "error.message.includes is not a function"
  end.

(** UTF-16 code units to code points; a lone surrogate becomes U+FFFD. *)
Fixpoint code_points (s : jsstring) : list N :=
  match s with
  | [] => []
  | c :: rest =>
      if ((55296 <=? c) && (c <=? 56319))%N then
        match rest with
        | c' :: rest' =>
            if ((56320 <=? c') && (c' <=? 57343))%N
            then (65536 + (c - 55296) * 1024 + (c' - 56320))%N :: code_points rest'
            else 65533%N :: code_points rest
        | [] => [65533%N]
        end
      else if ((56320 <=? c) && (c <=? 57343))%N then 65533%N :: code_points rest
      else c :: code_points rest
  end.

Definition utf8 (cp : N) : list N :=
  (if cp <? 128 then [cp]
   else if cp <? 2048 then [192 + cp / 64; 128 + cp mod 64]
   else if cp <? 65536 then
     [224 + cp / 4096; 128 + (cp / 64) mod 64; 128 + cp mod 64]
   else
     [240 + cp / 262144; 128 + (cp / 4096) mod 64;
      128 + (cp / 64) mod 64; 128 + cp mod 64])%N.

Definition hex_digit (n : N) : N := (if n <? 10 then 48 + n else 55 + n)%N.

Definition percent_encode (byte : N) : jsstring :=
  (if ((48 <=? byte) && (byte <=? 57)) || ((65 <=? byte) && (byte <=? 90))
      || ((97 <=? byte) && (byte <=? 122))
      || (byte =? 42) || (byte =? 45) || (byte =? 46) || (byte =? 95)
   then [byte]
   else if byte =? 32 then [43]
   else [37; hex_digit (byte / 16); hex_digit (byte mod 16)])%N.

Definition urlencode (s : jsstring) : jsstring :=
  concat (List.map percent_encode (concat (List.map utf8 (code_points s)))).

Fixpoint urlencoded (params : list (list N * list N)) : jsstring :=
  match params with
  | [] => []
  | [(name, v)] => urlencode name ++ lit "=" ++ urlencode v
  | (name, v) :: rest =>
      urlencode name ++ lit "=" ++ urlencode v ++ lit "&" ++ urlencoded rest
  end.

Definition reference_platform (token : option (list N))
    (transport : list Request -> Request -> completion any Response)
    : Platform := {|
  TWITTER_BEARER_TOKEN := token;
  Number_toString := decimal;
  URLSearchParams_toString := urlencoded;
  TypeError_message := V8_TypeError_message;
  httpx_fetch := transport
|}.

(** ** Sample inputs

    The inputs of the integration tests of the repository. *)

Definition configured
    (transport : list Request -> Request -> completion any Response)
    : Platform :=
  reference_platform (Some (lit "secret")) transport.

Definition empty_world : World :=
  {| console := []; dispatched := []; allocated := 0 |}.

Definition ten : number := Finite 10.
Definition one_half : number := Finite (1 # 2).

Definition a_client : TwitterApiClient :=
  {| API_BASE_URL := lit "https://api.twitter.com/2";
     authorizationHeader := lit "Bearer secret" |}.

Definition unauthorized : Response :=
  {| ok := false; status := Finite 401; statusText := lit "Unauthorized";
     json := Normal VUndefined |}.

Definition too_many_requests : Response :=
  {| ok := false; status := Finite 429; statusText := lit "Too Many Requests";
     json := Normal VUndefined |}.

Definition internal_server_error : Response :=
  {| ok := false; status := Finite 500;
     statusText := lit "Internal Server Error"; json := Normal VUndefined |}.

Definition network_error : any :=
  ErrorObject 7 (VString (lit "Network error")).

(** An [Error] whose [message] was overwritten with a number. *)
Definition numbered_error : any := ErrorObject 7 (VNumber (Finite 401)).

Definition metrics (likes retweets replies quotes : Z) : value :=
  object [ (lit "like_count", VNumber (Finite (inject_Z likes)));
           (lit "retweet_count", VNumber (Finite (inject_Z retweets)));
           (lit "reply_count", VNumber (Finite (inject_Z replies)));
           (lit "quote_count", VNumber (Finite (inject_Z quotes))) ].

Definition quoted : value :=
  object [ (lit "type", VString (lit "quoted")); (lit "id", VString (lit "54321")) ].

Definition first_tweet : gmap (list N) value :=
  list_to_map
    [ (lit "id", VString (lit "12345"));
      (lit "text", VString (lit "This is a test tweet"));
      (lit "created_at", VString (lit "2023-08-01T12:00:00Z"));
      (lit "author_id", VString (lit "67890"));
      (lit "public_metrics", metrics 10 5 2 1);
      (lit "referenced_tweets", VArray [quoted]) ].

Definition second_tweet : gmap (list N) value :=
  list_to_map
    [ (lit "id", VString (lit "12346"));
      (lit "text", VString (lit "Another tweet"));
      (lit "created_at", VString (lit "2023-08-01T12:05:00Z"));
      (lit "author_id", VString (lit "67891"));
      (lit "public_metrics", metrics 15 8 3 2) ].

Definition mockRawResponse : value :=
  object [ (lit "data", VArray [VObject first_tweet; VObject second_tweet]) ].

Definition success : Response :=
  {| ok := true; status := Finite 200; statusText := lit "OK";
     json := Normal mockRawResponse |}.

(** A 2xx response whose body is not JSON. *)
Definition syntax_error : any :=
  ErrorObject 3 (VString (lit "Unexpected token < in JSON at position 0")).

Definition unparseable : Response :=
  {| ok := true; status := Finite 200; statusText := lit "OK";
     json := Throw syntax_error |}.

(** A body whose [data] is a single record instead of an array. *)
Definition single_record_response : value :=
  object [ (lit "data", VObject second_tweet) ].

(** A body whose [data] has a [null] entry. *)
Definition null_entry_response : value :=
  object [ (lit "data", VArray [VObject first_tweet; VNull]) ].

(** * Properties *)

(** ** Strings *)

Lemma trimStart_nil (s : list N) :
  trimStart s = [] <-> forallb isWhiteSpace s = true.
Proof.
  induction s as [|c s IH]; simpl; [tauto|].
  destruct (isWhiteSpace c); simpl; [exact IH | split; discriminate].
Qed.

Lemma trimStart_whitespace (s : list N) :
  forallb isWhiteSpace (trimStart s) = true -> trimStart s = [].
Proof.
  induction s as [|c s IH]; simpl; [reflexivity|].
  destruct (isWhiteSpace c) eqn:E; [exact IH|].
  simpl. rewrite E. discriminate.
Qed.

Lemma forallb_reverse {A} (f : A -> bool) (l : list A) :
  forallb f (rev l) = forallb f l.
Proof.
  induction l as [|x l IH]; simpl; [reflexivity|].
  rewrite forallb_app, IH. simpl. rewrite andb_true_r. apply andb_comm.
Qed.

(** [s.trim()] is empty exactly when [s] consists of white space only. *)
Lemma trim_nil (s : list N) :
  trim s = [] <-> forallb isWhiteSpace s = true.
Proof.
  unfold trim, trimEnd. split.
  - intros E. apply (f_equal (@rev N)) in E. rewrite rev_involutive in E.
    simpl in E. apply trimStart_nil in E. rewrite forallb_reverse in E.
    apply trimStart_nil, trimStart_whitespace, E.
  - intros E. apply trimStart_nil in E. rewrite E. reflexivity.
Qed.

(** The test of line 31, [!query || query.trim().length === 0]. *)
Lemma query_test (query : list N) :
  negb (truthy (VString query)) || Nat.eqb (length (trim query)) 0
  = forallb isWhiteSpace query.
Proof.
  destruct (forallb isWhiteSpace query) eqn:E.
  - apply trim_nil in E. rewrite E. simpl. apply orb_true_r.
  - assert (trim query <> []) as Ht
      by (intros Ht; apply trim_nil in Ht; congruence).
    destruct query as [|c query]; [discriminate|].
    destruct (trim (c :: query)); [congruence | reflexivity].
Qed.

Lemma startsWith_spec (s search : list N) :
  startsWith s search = true <-> exists b, s = search ++ b.
Proof.
  revert s. induction search as [|x search IH]; intros s; simpl.
  - split; [eauto | destruct s; reflexivity].
  - destruct s as [|c s].
    + split; [discriminate | intros [b Hb]; discriminate].
    + cbn [startsWith]. rewrite andb_true_iff, N.eqb_eq, IH. split.
      * intros [-> [b ->]]. eauto.
      * intros [b Hb]. injection Hb as -> ->. eauto.
Qed.

Lemma includes_spec (s search : list N) :
  includes s search = true <-> contains s search.
Proof.
  unfold contains. induction s as [|c s IH].
  - cbn [includes]. rewrite orb_false_r, startsWith_spec. split.
    + intros [b Hb]. exists [], b. exact Hb.
    + intros [a [b Hab]]. destruct a; [eauto | discriminate].
  - cbn [includes]. rewrite orb_true_iff, IH, startsWith_spec. split.
    + intros [[b Hb] | [a [b Hab]]].
      * exists [], b. exact Hb.
      * exists (c :: a), b. simpl. congruence.
    + intros [[|c' a] [b Hab]].
      * left. eauto.
      * right. injection Hab as -> ->. eauto.
Qed.

Lemma includes_false (s search : list N) :
  includes s search = false <-> ~ contains s search.
Proof.
  rewrite <- includes_spec. destruct (includes s search); split; congruence.
Qed.

(** ** Numbers *)

Lemma positive_not_leb_zero (limit : number) :
  number_ltb zero limit = true -> number_leb limit zero = false.
Proof.
  destruct limit as [|[|]|q]; simpl; try discriminate; try reflexivity.
  apply negb_true_iff.
Qed.

(** ** [processResponse] *)

Lemma get_property_readable (v : value) (key : list N) :
  readable v -> get_property v key = Normal (property v key).
Proof. intros [Hu Hn]. destruct v; try reflexivity; congruence. Qed.

Lemma get_property_unreadable (v : value) (key : list N) :
  ~ readable v -> get_property v key = Throw CannotReadProperties.
Proof.
  intros Hv. destruct v; try reflexivity;
    exfalso; apply Hv; split; discriminate.
Qed.

Lemma simplify_tweet_readable (tweet : value) :
  readable tweet -> simplify_tweet tweet = Normal (simplified tweet).
Proof.
  intros Hv. unfold simplify_tweet.
  rewrite !(get_property_readable _ _ Hv). reflexivity.
Qed.

Lemma simplify_tweet_unreadable (tweet : value) :
  ~ readable tweet -> simplify_tweet tweet = Throw CannotReadProperties.
Proof.
  intros Hv. unfold simplify_tweet.
  rewrite !(get_property_unreadable _ _ Hv). reflexivity.
Qed.

Lemma readable_dec (v : value) : {readable v} + {~ readable v}.
Proof.
  destruct v; try (left; split; discriminate);
    right; intros [Hu Hn]; congruence.
Defined.

Lemma mapM_simplify_tweet (tweets : list value) :
  Forall readable tweets ->
  mapM simplify_tweet tweets = Normal (List.map simplified tweets).
Proof.
  induction 1 as [|tweet tweets Hv _ IH]; [reflexivity|].
  cbn [mapM List.map]. rewrite (simplify_tweet_readable _ Hv), IH. reflexivity.
Qed.

Lemma mapM_simplify_tweet_throws (tweets : list value) :
  Exists (fun tweet => ~ readable tweet) tweets ->
  mapM simplify_tweet tweets = Throw CannotReadProperties.
Proof.
  induction 1 as [tweet tweets Hv | tweet tweets _ IH]; cbn [mapM].
  - rewrite (simplify_tweet_unreadable _ Hv). reflexivity.
  - destruct (readable_dec tweet) as [Hv | Hv].
    + rewrite (simplify_tweet_readable _ Hv), IH. reflexivity.
    + rewrite (simplify_tweet_unreadable _ Hv). reflexivity.
Qed.

(** A response whose [data] can be read is itself truthy or a falsy
    primitive; in both cases the first test of line 93 does not throw. *)
Lemma processResponse_data (responseData data : value) :
  get_property responseData (lit "data") = Normal data ->
  processResponse responseData =
    if truthy data then call_map data simplify_tweet else Normal (VArray []).
Proof.
  intros Hdata. unfold processResponse.
  destruct (truthy responseData) eqn:Ht; cbn [negb].
  - rewrite Hdata. cbn. destruct (truthy data); reflexivity.
  - destruct responseData; try discriminate Hdata; try discriminate Ht;
      cbn in Hdata; injection Hdata as <-; reflexivity.
Qed.

(** C1, as the code has it.  [processResponse] returns the empty sequence
    when the response is absent (falsy) or its [data] is absent or falsy, and
    a sequence with one entry per element when [data] is an array none of
    whose entries is [null] or [undefined] (the empty array included).  On
    the remaining shapes it throws a TypeError: [data] truthy but not an
    array, or an array with a [null]/[undefined] entry. *)
Theorem processResponse_defined_on_benign_shapes (responseData : value) :
  (truthy responseData = false ->
     processResponse responseData = Normal (VArray []))
  /\ (forall data,
        get_property responseData (lit "data") = Normal data ->
        truthy data = false ->
        processResponse responseData = Normal (VArray []))
  /\ (forall tweets,
        get_property responseData (lit "data") = Normal (VArray tweets) ->
        Forall readable tweets ->
        exists posts,
          processResponse responseData = Normal (VArray posts)
          /\ length posts = length tweets)
  /\ (forall data,
        get_property responseData (lit "data") = Normal data ->
        truthy data = true ->
        (forall items, data <> VArray items) ->
        processResponse responseData = Throw NotAFunction)
  /\ (forall tweets,
        get_property responseData (lit "data") = Normal (VArray tweets) ->
        Exists (fun tweet => ~ readable tweet) tweets ->
        processResponse responseData = Throw CannotReadProperties).
Proof.
  repeat split.
  - intros Ht. unfold processResponse. rewrite Ht. reflexivity.
  - intros data Hdata Ht. rewrite (processResponse_data _ _ Hdata), Ht.
    reflexivity.
  - intros tweets Hdata Hall. exists (List.map simplified tweets).
    rewrite (processResponse_data _ _ Hdata). cbn.
    rewrite (mapM_simplify_tweet _ Hall). split; [reflexivity|].
    apply length_map.
  - intros data Hdata Ht Hna. rewrite (processResponse_data _ _ Hdata), Ht.
    destruct data; try reflexivity. exfalso. eapply Hna. reflexivity.
  - intros tweets Hdata Hex. rewrite (processResponse_data _ _ Hdata). cbn.
    rewrite (mapM_simplify_tweet_throws _ Hex). reflexivity.
Qed.

Lemma record_readable (v : value) : is_record v -> readable v.
Proof. intros [props ->]. split; discriminate. Qed.

(** C4.  When [data] is a sequence of raw records, [processResponse]
    returns one object per record, in the order of [data].  The object at
    position [i] holds [id], [text], [createdAt], [authorId] and [metrics]
    read from [id], [text], [created_at], [author_id] and [public_metrics]
    of the record at position [i], and [referencedTweets] (the spec's
    referencedPosts), which is the record's [referenced_tweets] when that is
    a sequence, the empty sequence when the record has no such property, and
    in no case [null] or [undefined]. *)
Theorem processResponse_one_post_per_record
    (responseData : value) (tweets : list value) :
  get_property responseData (lit "data") = Normal (VArray tweets) ->
  Forall is_record tweets ->
  exists posts,
    processResponse responseData = Normal (VArray posts)
    /\ length posts = length tweets
    /\ forall (i : nat) (props : gmap (list N) value),
         tweets !! i = Some (VObject props) ->
         exists referenced,
           posts !! i = Some (object
             [ (lit "id", default VUndefined (props !! lit "id"));
               (lit "text", default VUndefined (props !! lit "text"));
               (lit "createdAt", default VUndefined (props !! lit "created_at"));
               (lit "authorId", default VUndefined (props !! lit "author_id"));
               (lit "metrics", default VUndefined (props !! lit "public_metrics"));
               (lit "referencedTweets", referenced) ])
           /\ (forall refs, props !! lit "referenced_tweets" = Some (VArray refs) ->
                 referenced = VArray refs)
           /\ (props !! lit "referenced_tweets" = None -> referenced = VArray [])
           /\ referenced <> VUndefined /\ referenced <> VNull.
Proof.
  intros Hdata Hrec. exists (List.map simplified tweets).
  rewrite (processResponse_data _ _ Hdata). cbn.
  rewrite mapM_simplify_tweet
    by (eapply Forall_impl; [exact Hrec | apply record_readable]).
  split; [reflexivity|]. split; [apply length_map|].
  intros i props Hi.
  exists (or_else (default VUndefined (props !! lit "referenced_tweets"))
            (VArray [])).
  split; [|split; [|split]].
  - change (List.map simplified tweets) with (simplified <$> tweets).
    rewrite list_lookup_fmap, Hi. reflexivity.
  - intros refs ->. reflexivity.
  - intros ->. reflexivity.
  - unfold or_else.
    destruct (truthy (default VUndefined (props !! lit "referenced_tweets")))
      eqn:Ht; [|split; discriminate].
    split; intros E; rewrite E in Ht; discriminate.
Qed.

(** ** The client *)

Section ClientProperties.
Context `{Platform}.

(** [handleError] on a value it can classify: it returns. *)
Lemma handleError_run (error : any) (w : World) :
  classifiable error = true ->
  exists w',
    handleError error w = (Normal tt, w')
    /\ console w' =
         console w ++ [Plain (VString (lit "Twitter API Error:")); error]
                      :: supplementary error
    /\ dispatched w' = dispatched w
    /\ allocated w' = allocated w.
Proof.
  intros Hc.
  unfold handleError, supplementary, found, evaluate, mbind, M_bind, mret,
    M_ret, console_error.
  destruct error as [ref message | v].
  - destruct message; try discriminate Hc; cbn [call_includes].
    + destruct (includes s (lit "401")).
      * eexists. split; [reflexivity|]. cbn. rewrite <- app_assoc. auto.
      * destruct (includes s (lit "Unauthorized")).
        -- eexists. split; [reflexivity|]. cbn. rewrite <- app_assoc. auto.
        -- destruct (includes s (lit "429")).
           ++ eexists. split; [reflexivity|]. cbn. rewrite <- app_assoc. auto.
           ++ eexists. split; [reflexivity|]. cbn. auto.
    + destruct (existsb _ items).
      * eexists. split; [reflexivity|]. cbn. rewrite <- app_assoc. auto.
      * destruct (existsb _ items).
        -- eexists. split; [reflexivity|]. cbn. rewrite <- app_assoc. auto.
        -- destruct (existsb _ items).
           ++ eexists. split; [reflexivity|]. cbn. rewrite <- app_assoc. auto.
           ++ eexists. split; [reflexivity|]. cbn. auto.
  - eexists. split; [reflexivity|]. cbn. auto.
Qed.

(** [handleError] on an [Error] whose message has no [includes]: the
    raw-error line, then the TypeError of line 78. *)
Lemma handleError_fault (ref : nat) (message : value) (w : World) :
  classifiable (ErrorObject ref message) = false ->
  handleError (ErrorObject ref message) w =
    (Throw (ErrorObject (allocated w)
              (VString (TypeError_message (includes_fault message)))),
     allocate (log [Plain (VString (lit "Twitter API Error:"));
                    ErrorObject ref message] w))
  /\ supplementary (ErrorObject ref message) = [].
Proof.
  intros Hc. destruct message; try discriminate Hc; split; reflexivity.
Qed.

Lemma handleError_returns (error : any) (w : World) :
  classifiable error = true -> fst (handleError error w) = Normal tt.
Proof.
  intros Hc. destruct (handleError_run error w Hc) as [w' [-> _]]. reflexivity.
Qed.

Lemma handleError_console (error : any) (w : World) :
  console (snd (handleError error w)) =
    console w ++ [Plain (VString (lit "Twitter API Error:")); error]
                 :: supplementary error.
Proof.
  destruct (classifiable error) eqn:Hc.
  - destruct (handleError_run error w Hc) as [w' [-> [E _]]]. exact E.
  - destruct error as [ref message | v]; [|discriminate].
    destruct (handleError_fault ref message w Hc) as [-> ->]. reflexivity.
Qed.

(** Symbolic evaluation of the [try] block. *)
Lemma fetchTweets_try_run (this : TwitterApiClient) (query : list N)
    (limit : number) (w : World) :
  fetchTweets_try this query limit w =
    if forallb isWhiteSpace query then
      (Throw (ErrorObject (allocated w) (VString (lit "Query parameter is required"))),
       allocate w)
    else if number_leb limit zero then
      (Throw (ErrorObject (allocated w) (VString (lit "Limit must be a positive integer"))),
       allocate w)
    else
      match httpx_fetch (dispatched w) (search_request this query limit) with
      | Throw error => (Throw error, send (search_request this query limit) w)
      | Normal response =>
          if ok response
          then (json response, send (search_request this query limit) w)
          else (Throw (ErrorObject (allocated w)
                         (VString
                            (lit "Twitter API error: "
                               ++ Number_toString (status response)
                               ++ lit " " ++ statusText response))),
                allocate (send (search_request this query limit) w))
      end.
Proof.
  unfold fetchTweets_try, mbind, M_bind, mret, M_ret, new_Error, throw, fetch,
    await.
  rewrite query_test.
  destruct (forallb isWhiteSpace query); [reflexivity|].
  destruct (number_leb limit zero); [reflexivity|].
  fold (search_request this query limit).
  destruct (httpx_fetch (dispatched w) (search_request this query limit)) as [response|error];
    [|reflexivity].
  destruct (ok response); reflexivity.
Qed.

(** The [catch] clause: whatever the [try] block throws is passed to
    [handleError]; it is thrown again when [handleError] returns. *)
Lemma fetchTweets_catch (this : TwitterApiClient) (query : list N)
    (limit : number) (w : World) :
  fetchTweets this query limit w =
    match fetchTweets_try this query limit w with
    | (Normal body, w') => (Normal body, w')
    | (Throw error, w0) =>
        (match fst (handleError error w0) with
         | Normal _ => Throw error
         | Throw fault => Throw fault
         end,
         snd (handleError error w0))
    end.
Proof.
  unfold fetchTweets, try_catch.
  destruct (fetchTweets_try this query limit w) as [[body|error] w0];
    [reflexivity|].
  unfold mbind, M_bind, throw.
  destruct (handleError error w0) as [[[]|fault] w']; reflexivity.
Qed.

Lemma handleError_dispatched (error : any) (w : World) :
  dispatched (snd (handleError error w)) = dispatched w.
Proof.
  destruct (classifiable error) eqn:Hc.
  - destruct (handleError_run error w Hc) as [w' [-> [_ [Hd _]]]]. exact Hd.
  - destruct error as [ref message | v]; [|discriminate].
    destruct (handleError_fault ref message w Hc) as [-> _]. reflexivity.
Qed.

(** *** Construction *)

(** C8.  Without a bearer token (the constant is [undefined] or the empty
    string) construction itself throws [TWITTER_BEARER_TOKEN is not
    configured] and no client exists; with a non-empty token it returns a
    client whose authorization header is [Bearer <token>].  No method
    returns a changed client, so the header stays what construction
    stored. *)
Theorem constructor_requires_token (w : World) :
  (TWITTER_BEARER_TOKEN = None \/ TWITTER_BEARER_TOKEN = Some [] ->
     constructor w =
       (Throw (ErrorObject (allocated w)
                 (VString (lit "TWITTER_BEARER_TOKEN is not configured"))),
        allocate w))
  /\ (forall token,
        TWITTER_BEARER_TOKEN = Some token -> token <> [] ->
        constructor w =
          (Normal {| API_BASE_URL := lit "https://api.twitter.com/2";
                     authorizationHeader := lit "Bearer " ++ token |},
           w)).
Proof.
  unfold constructor, mbind, M_bind, mret, M_ret, new_Error, throw. split.
  - intros [-> | ->]; reflexivity.
  - intros token -> Hne. destruct token; [congruence | reflexivity].
Qed.

(** *** [handleError] *)


(** C9.  For a thrown value that is not an [Error] instance, whatever its
    text, [handleError] prints the raw error and nothing else. *)
Theorem handleError_classifies_only_Error (error : any) (w : World) :
  instanceof_Error error = false ->
  handleError error w =
    (Normal tt, log [Plain (VString (lit "Twitter API Error:")); error] w).
Proof. destruct error; [discriminate | reflexivity]. Qed.

(** *** [fetchTweets] *)

(** C5.  When the query is empty or consists of white space only, or the
    limit is at most zero, [fetchTweets] throws a validation error (one of
    the two messages of lines 32 and 35) and the list of dispatched
    requests is what it was before the call. *)
Theorem fetchTweets_validates_before_io (this : TwitterApiClient)
    (query : list N) (limit : number) (w : World) :
  forallb isWhiteSpace query = true \/ number_leb limit zero = true ->
  exists message w',
    fetchTweets this query limit w =
      (Throw (ErrorObject (allocated w) (VString message)), w')
    /\ (message = lit "Query parameter is required"
        \/ message = lit "Limit must be a positive integer")
    /\ (forallb isWhiteSpace query = true ->
        message = lit "Query parameter is required")
    /\ dispatched w' = dispatched w.
Proof.
  intros Hbad. rewrite fetchTweets_catch, fetchTweets_try_run.
  destruct (forallb isWhiteSpace query) eqn:Hq.
  - eexists _, _. split; [reflexivity|].
    rewrite handleError_dispatched. auto.
  - destruct Hbad as [Hbad | ->]; [discriminate|].
    eexists _, _. split; [reflexivity|].
    rewrite handleError_dispatched. split; [auto|]. split; [discriminate|].
    reflexivity.
Qed.

(** C2.  When validation passes and the transport resolves with a 2xx
    response whose body parses, [fetchTweets] returns that body itself;
    [processResponse] is not applied, nothing is printed and exactly the one
    request has been dispatched.  The code reads [response.ok]; the
    transport is taken to set it as the Fetch standard does, to [true]
    exactly for a status from 200 to 299. *)
Theorem fetchTweets_returns_raw_body (this : TwitterApiClient)
    (query : list N) (limit : number) (w : World)
    (response : Response) (body : value) :
  forallb isWhiteSpace query = false ->
  number_leb limit zero = false ->
  httpx_fetch (dispatched w) (search_request this query limit) = Normal response ->
  ok response = is_2xx (status response) ->
  is_2xx (status response) = true ->
  json response = Normal body ->
  fetchTweets this query limit w =
    (Normal body, send (search_request this query limit) w).
Proof.
  intros Hq Hl Hfetch Hok H2xx Hjson.
  rewrite fetchTweets_catch, fetchTweets_try_run, Hq, Hl, Hfetch, Hok, H2xx,
    Hjson.
  reflexivity.
Qed.

(** C3.  When validation passes and the transport resolves with a response
    whose status is not 2xx, [fetchTweets] throws an [Error] whose message
    is [Twitter API error: <status> <statusText>]: the status printed as a
    number, one space, the reason phrase of the response.  As for C2,
    [response.ok] is taken to be set as the Fetch standard does. *)
Theorem fetchTweets_non_2xx_raises (this : TwitterApiClient)
    (query : list N) (limit : number) (w : World) (response : Response) :
  forallb isWhiteSpace query = false ->
  number_leb limit zero = false ->
  httpx_fetch (dispatched w) (search_request this query limit) = Normal response ->
  ok response = is_2xx (status response) ->
  is_2xx (status response) = false ->
  exists w',
    fetchTweets this query limit w =
      (Throw (ErrorObject (allocated w)
                (VString
                   (lit "Twitter API error: " ++ Number_toString (status response)
                      ++ lit " " ++ statusText response))),
       w').
Proof.
  intros Hq Hl Hfetch Hok H2xx.
  rewrite fetchTweets_catch, fetchTweets_try_run, Hq, Hl, Hfetch, Hok, H2xx.
  rewrite handleError_returns by reflexivity.
  eexists. reflexivity.
Qed.

(** C6, as the code has it.  Whatever the [try] block throws,
    [handleError] is run on it from the world of the throw and prints that
    very value first.  When [handleError] returns, [fetchTweets] then throws
    the same value: so it is for every error the code itself creates (a
    validation failure, a response that is not [ok]), for every thrown value
    that is not an [Error], and for every [Error] whose message is a string;
    in particular such a rejection of the transport reaches the caller as
    the value the transport rejected with.  When the thrown value is an
    [Error] whose message has no [includes], [handleError] throws a
    TypeError and that TypeError reaches the caller instead. *)
Theorem fetchTweets_reports_then_rethrows (this : TwitterApiClient)
    (query : list N) (limit : number) (w : World) :
  (forall error w0,
     fetchTweets_try this query limit w = (Throw error, w0) ->
     exists outcome extra w',
       handleError error w0 = (outcome, w')
       /\ console w' =
            console w0
              ++ [Plain (VString (lit "Twitter API Error:")); error] :: extra
       /\ (classifiable error = true ->
           outcome = Normal tt
           /\ fetchTweets this query limit w = (Throw error, w'))
       /\ (forall fault,
             outcome = Throw fault ->
             classifiable error = false
             /\ fetchTweets this query limit w = (Throw fault, w')))
  /\ (forall error w0,
        fetchTweets_try this query limit w = (Throw error, w0) ->
        forallb isWhiteSpace query = true
        \/ number_leb limit zero = true
        \/ (exists response,
              httpx_fetch (dispatched w) (search_request this query limit)
              = Normal response
              /\ ok response = false) ->
        exists w', fetchTweets this query limit w = (Throw error, w'))
  /\ (forall error,
        forallb isWhiteSpace query = false ->
        number_leb limit zero = false ->
        httpx_fetch (dispatched w) (search_request this query limit)
        = Throw error ->
        classifiable error = true ->
        exists w', fetchTweets this query limit w = (Throw error, w')).
Proof.
  split; [|split].
  - intros error w0 Htry.
    exists (fst (handleError error w0)), (supplementary error),
      (snd (handleError error w0)).
    split; [destruct (handleError error w0); reflexivity|].
    split; [apply handleError_console|]. split.
    + intros Hc. rewrite fetchTweets_catch, Htry, (handleError_returns _ _ Hc).
      split; reflexivity.
    + intros fault Hfault. rewrite fetchTweets_catch, Htry, Hfault.
      split; [|reflexivity].
      destruct (classifiable error) eqn:Hc; [|reflexivity].
      rewrite (handleError_returns _ _ Hc) in Hfault. discriminate.
  - intros error w0 Htry Hwhy.
    assert (classifiable error = true) as Hc.
    { rewrite fetchTweets_try_run in Htry.
      destruct (forallb isWhiteSpace query) eqn:Hq.
      { injection Htry as <- _. reflexivity. }
      destruct (number_leb limit zero) eqn:Hl.
      { injection Htry as <- _. reflexivity. }
      destruct Hwhy as [Hwhy | [Hwhy | [response [Hfetch Hok]]]];
        try discriminate.
      rewrite Hfetch, Hok in Htry. injection Htry as <- _. reflexivity. }
    rewrite fetchTweets_catch, Htry, (handleError_returns _ _ Hc).
    eexists. reflexivity.
  - intros error Hq Hl Hfetch Hc.
    rewrite fetchTweets_catch, fetchTweets_try_run, Hq, Hl, Hfetch,
      (handleError_returns _ _ Hc).
    eexists. reflexivity.
Qed.

(** C10.  Validation compares the limit with zero and nothing else.  For a
    non-empty query in the sense of the request invariant (non-empty once
    trimmed) and any limit above zero, integral or not, [fetchTweets] passes
    validation and dispatches the request whose [max_results] parameter is
    [limit.toString()]. *)
Theorem fetchTweets_accepts_any_positive_limit (this : TwitterApiClient)
    (query : list N) (limit : number) (w : World) :
  trim query <> [] ->
  number_ltb zero limit = true ->
  exists outcome w',
    fetchTweets this query limit w = (outcome, w')
    /\ dispatched w' =
         dispatched w
           ++ [ {| url := API_BASE_URL this ++ lit "/tweets/search/recent?"
                     ++ URLSearchParams_toString
                          [ (lit "query", trim query);
                            (lit "max_results", Number_toString limit);
                            (lit "tweet.fields",
                             lit "created_at,author_id,public_metrics,referenced_tweets") ];
                   headers := [ (lit "Authorization", authorizationHeader this);
                                (lit "Content-Type", lit "application/json") ] |} ].
Proof.
  intros Hq Hl.
  assert (forallb isWhiteSpace query = false) as Hws.
  { destruct (forallb isWhiteSpace query) eqn:E; [|reflexivity].
    apply trim_nil in E. congruence. }
  rewrite fetchTweets_catch, fetchTweets_try_run, Hws,
    (positive_not_leb_zero _ Hl).
  fold (search_request this query limit).
  destruct (httpx_fetch (dispatched w) (search_request this query limit)) as [response|error].
  - destruct (ok response).
    + destruct (json response) as [body|error].
      * eexists _, _. split; reflexivity.
      * eexists _, _. split; [reflexivity|].
        rewrite handleError_dispatched. reflexivity.
    + eexists _, _. split; [reflexivity|].
      rewrite handleError_dispatched. reflexivity.
  - eexists _, _. split; [reflexivity|].
    rewrite handleError_dispatched. reflexivity.
Qed.

End ClientProperties.

(** * The client on the sample inputs *)

(** The request of [fetchTweets('#test', 0.5)], as text. *)
Example search_request_text :
  url (search_request (H := configured (fun _ _ => Normal success))
         a_client (lit "  #test ") one_half)
  = lit ("https://api.twitter.com/2/tweets/search/recent?"
         ++ "query=%23test&max_results=0.5"
         ++ "&tweet.fields=created_at%2Cauthor_id%2Cpublic_metrics%2Creferenced_tweets").
Proof. vm_compute. reflexivity. Qed.

(** The scenario of the spec: two records, the second without
    [referenced_tweets]. *)
Example processResponse_mockRawResponse :
  processResponse mockRawResponse =
    Normal (VArray
      [ object [ (lit "id", VString (lit "12345"));
                 (lit "text", VString (lit "This is a test tweet"));
                 (lit "createdAt", VString (lit "2023-08-01T12:00:00Z"));
                 (lit "authorId", VString (lit "67890"));
                 (lit "metrics", metrics 10 5 2 1);
                 (lit "referencedTweets", VArray [quoted]) ];
        object [ (lit "id", VString (lit "12346"));
                 (lit "text", VString (lit "Another tweet"));
                 (lit "createdAt", VString (lit "2023-08-01T12:05:00Z"));
                 (lit "authorId", VString (lit "67891"));
                 (lit "metrics", metrics 15 8 3 2);
                 (lit "referencedTweets", VArray []) ] ]).
Proof. vm_compute. reflexivity. Qed.

(** [fetchTweets] on the same body returns the body, which is not what
    [processResponse] makes of it. *)
Example fetchTweets_mockRawResponse :
  fst (fetchTweets (H := configured (fun _ _ => Normal success))
         a_client (lit "#test") ten empty_world) = Normal mockRawResponse
  /\ Normal mockRawResponse <> processResponse mockRawResponse.
Proof. split; [vm_compute; reflexivity | vm_compute; discriminate]. Qed.

(** The 401 scenario of the spec: the message and both console lines. *)
Example fetchTweets_unauthorized :
  let (outcome, w') :=
    fetchTweets (H := configured (fun _ _ => Normal unauthorized))
      a_client (lit "test") ten empty_world in
  outcome = Throw (ErrorObject 0 (VString (lit "Twitter API error: 401 Unauthorized")))
  /\ console w' =
       [ [ Plain (VString (lit "Twitter API Error:"));
           ErrorObject 0 (VString (lit "Twitter API error: 401 Unauthorized")) ];
         [ Plain (VString (lit
             "Authentication failed. Please check your Twitter API credentials.")) ] ].
Proof. vm_compute. split; reflexivity. Qed.

(** A limit that is not a number passes the test [limit <= 0]. *)
Example fetchTweets_NaN_limit :
  length (dispatched (snd
    (fetchTweets (H := configured (fun _ _ => Normal success))
       a_client (lit "test") NaN empty_world))) = 1.
Proof. vm_compute. reflexivity. Qed.

(** [processResponse] throws when [data] is a record instead of an array
    of records. *)
Lemma processResponse_not_total :
  processResponse single_record_response = Throw NotAFunction
  /\ ~ exists posts, processResponse single_record_response = Normal (VArray posts).
Proof.
  assert (processResponse single_record_response = Throw NotAFunction) as E
    by (vm_compute; reflexivity).
  split; [exact E|]. intros [posts Hposts]. rewrite E in Hposts. discriminate.
Qed.

(** It also throws when an entry of [data] is [null]. *)
Example processResponse_null_entry :
  processResponse null_entry_response = Throw CannotReadProperties.
Proof. vm_compute. reflexivity. Qed.

Lemma processResponse_defined_on_benign_shapes_witness :
  processResponse VUndefined = Normal (VArray [])
  /\ processResponse (object []) = Normal (VArray [])
  /\ (exists posts,
        processResponse mockRawResponse = Normal (VArray posts)
        /\ length posts = 2).
Proof.
  split; [|split].
  - apply (proj1 (processResponse_defined_on_benign_shapes VUndefined)).
    reflexivity.
  - apply (proj1 (proj2 (processResponse_defined_on_benign_shapes (object [])))
             VUndefined); reflexivity.
  - apply (proj1 (proj2 (proj2
             (processResponse_defined_on_benign_shapes mockRawResponse)))
             [VObject first_tweet; VObject second_tweet]).
    + vm_compute. reflexivity.
    + repeat constructor; discriminate.
Defined.

Lemma processResponse_one_post_per_record_witness :
  exists posts,
    processResponse mockRawResponse = Normal (VArray posts)
    /\ length posts = 2.
Proof.
  destruct (processResponse_one_post_per_record mockRawResponse
              [VObject first_tweet; VObject second_tweet])
    as [posts [Hposts [Hlen _]]].
  - vm_compute. reflexivity.
  - repeat constructor; eexists; reflexivity.
  - exists posts. split; [exact Hposts | exact Hlen].
Defined.

Lemma constructor_requires_token_witness :
  constructor (H := reference_platform None (fun _ _ => Normal success))
    empty_world
  = (Throw (ErrorObject 0 (VString (lit "TWITTER_BEARER_TOKEN is not configured"))),
     allocate empty_world)
  /\ constructor (H := configured (fun _ _ => Normal success)) empty_world
     = (Normal a_client, empty_world).
Proof.
  split.
  - apply (proj1 (constructor_requires_token
                    (H := reference_platform None (fun _ _ => Normal success))
                    empty_world)).
    left. reflexivity.
  - apply (proj2 (constructor_requires_token
                    (H := configured (fun _ _ => Normal success)) empty_world)
             (lit "secret")); [reflexivity | discriminate].
Defined.



Lemma handleError_classifies_only_Error_witness :
  handleError (H := configured (fun _ _ => Normal success))
    (Plain (VString (lit "401 Unauthorized"))) empty_world
  = (Normal tt,
     log [Plain (VString (lit "Twitter API Error:"));
          Plain (VString (lit "401 Unauthorized"))] empty_world).
Proof.
  apply (handleError_classifies_only_Error
           (H := configured (fun _ _ => Normal success))
           (Plain (VString (lit "401 Unauthorized"))) empty_world).
  reflexivity.
Defined.

Lemma fetchTweets_validates_before_io_witness :
  exists message w',
    fetchTweets (H := configured (fun _ _ => Normal success))
      a_client [] ten empty_world
    = (Throw (ErrorObject 0 (VString message)), w')
    /\ (message = lit "Query parameter is required"
        \/ message = lit "Limit must be a positive integer")
    /\ (forallb isWhiteSpace [] = true ->
        message = lit "Query parameter is required")
    /\ dispatched w' = [].
Proof.
  apply (fetchTweets_validates_before_io
           (H := configured (fun _ _ => Normal success))
           a_client [] ten empty_world).
  left. reflexivity.
Defined.

Lemma fetchTweets_returns_raw_body_witness :
  fetchTweets (H := configured (fun _ _ => Normal success))
    a_client (lit "#test") ten empty_world
  = (Normal mockRawResponse,
     send (search_request (H := configured (fun _ _ => Normal success))
             a_client (lit "#test") ten) empty_world).
Proof.
  apply (fetchTweets_returns_raw_body
           (H := configured (fun _ _ => Normal success))
           a_client (lit "#test") ten empty_world success mockRawResponse);
    reflexivity.
Defined.

Lemma fetchTweets_non_2xx_raises_witness :
  exists w',
    fetchTweets (H := configured (fun _ _ => Normal internal_server_error))
      a_client (lit "test") ten empty_world
    = (Throw (ErrorObject 0
                (VString (lit "Twitter API error: 500 Internal Server Error"))), w').
Proof.
  apply (fetchTweets_non_2xx_raises
           (H := configured (fun _ _ => Normal internal_server_error))
           a_client (lit "test") ten empty_world internal_server_error);
    reflexivity.
Defined.

(** When the transport rejects with an [Error] whose message is a
    number, the caller receives a TypeError, not the rejection. *)
Lemma fetchTweets_replaces_error :
  fst (fetchTweets (H := configured (fun _ _ => Throw numbered_error))
         a_client (lit "test") ten empty_world)
  = Throw (ErrorObject 0
             (VString (lit "error.message.includes is not a function")))
  /\ fst (fetchTweets (H := configured (fun _ _ => Throw numbered_error))
            a_client (lit "test") ten empty_world)
     <> Throw numbered_error.
Proof. split; [vm_compute; reflexivity | vm_compute; discriminate]. Qed.

Lemma fetchTweets_reports_then_rethrows_witness :
  (exists w',
     fetchTweets (H := configured (fun _ _ => Normal unauthorized))
       a_client (lit "test") ten empty_world
     = (Throw (ErrorObject 0
                 (VString (lit "Twitter API error: 401 Unauthorized"))), w'))
  /\ (exists w',
        fetchTweets (H := configured (fun _ _ => Throw network_error))
          a_client (lit "test") ten empty_world
        = (Throw network_error, w')).
Proof.
  split.
  - apply (proj1 (proj2 (fetchTweets_reports_then_rethrows
                           (H := configured (fun _ _ => Normal unauthorized))
                           a_client (lit "test") ten empty_world))
             _ (allocate (send (search_request
                                  (H := configured
                                          (fun _ _ => Normal unauthorized))
                                  a_client (lit "test") ten) empty_world))).
    + vm_compute. reflexivity.
    + right. right. exists unauthorized. split; reflexivity.
  - apply (proj2 (proj2 (fetchTweets_reports_then_rethrows
                           (H := configured (fun _ _ => Throw network_error))
                           a_client (lit "test") ten empty_world)));
      reflexivity.
Defined.

Lemma fetchTweets_accepts_any_positive_limit_witness :
  exists outcome w',
    fetchTweets (H := configured (fun _ _ => Normal success))
      a_client (lit "test") one_half empty_world = (outcome, w')
    /\ dispatched w' =
         [ {| url := lit "https://api.twitter.com/2" ++ lit "/tweets/search/recent?"
                ++ urlencoded
                     [ (lit "query", lit "test");
                       (lit "max_results", lit "0.5");
                       (lit "tweet.fields",
                        lit "created_at,author_id,public_metrics,referenced_tweets") ];
              headers := [ (lit "Authorization", lit "Bearer secret");
                           (lit "Content-Type", lit "application/json") ] |} ].
Proof.
  apply (fetchTweets_accepts_any_positive_limit
           (H := configured (fun _ _ => Normal success))
           a_client (lit "test") one_half empty_world).
  - vm_compute. discriminate.
  - reflexivity.
Defined.

(** * Further properties *)

(** ** [trim], as [fetchTweets] uses it *)

Lemma trimStart_idempotent (s : list N) : trimStart (trimStart s) = trimStart s.
Proof.
  induction s as [|c s IH]; [reflexivity|]. cbn [trimStart].
  destruct (isWhiteSpace c) eqn:E; [exact IH|]. cbn [trimStart]. rewrite E.
  reflexivity.
Qed.

Lemma trimStart_head (s : list N) (c : N) (t : list N) :
  trimStart s = c :: t -> isWhiteSpace c = false.
Proof.
  induction s as [|x s IH]; cbn [trimStart]; [discriminate|].
  destruct (isWhiteSpace x) eqn:E; [exact IH|]. intros [= <- _]. exact E.
Qed.

Lemma trimStart_split (s : list N) :
  exists a, s = a ++ trimStart s /\ forallb isWhiteSpace a = true.
Proof.
  induction s as [|c s [a [Hs Ha]]]; [exists []; split; reflexivity|].
  cbn [trimStart]. destruct (isWhiteSpace c) eqn:E.
  - exists (c :: a). cbn. rewrite E, Ha. split; [congruence | reflexivity].
  - exists []. split; reflexivity.
Qed.

Lemma trimStart_snoc (s : list N) (c : N) :
  isWhiteSpace c = false -> trimStart (s ++ [c]) = trimStart s ++ [c].
Proof.
  intros E. induction s as [|x s IH]; cbn [trimStart app].
  - rewrite E. reflexivity.
  - destruct (isWhiteSpace x); [exact IH | reflexivity].
Qed.

Lemma trimEnd_cons (c : N) (s : list N) :
  isWhiteSpace c = false -> trimEnd (c :: s) = c :: trimEnd s.
Proof.
  intros E. unfold trimEnd. cbn [rev]. rewrite (trimStart_snoc _ _ E).
  rewrite rev_app_distr. reflexivity.
Qed.

Lemma trimEnd_idempotent (s : list N) : trimEnd (trimEnd s) = trimEnd s.
Proof.
  unfold trimEnd. rewrite rev_involutive, trimStart_idempotent. reflexivity.
Qed.

Lemma trimEnd_split (s : list N) :
  exists b, s = trimEnd s ++ b /\ forallb isWhiteSpace b = true.
Proof.
  destruct (trimStart_split (rev s)) as [a [Hs Ha]]. exists (rev a). split.
  - unfold trimEnd. rewrite <- rev_app_distr, <- Hs, rev_involutive.
    reflexivity.
  - rewrite forallb_reverse. exact Ha.
Qed.

Lemma trim_idempotent (s : list N) : trim (trim s) = trim s.
Proof.
  unfold trim. destruct (trimStart s) as [|c t] eqn:Es; [reflexivity|].
  pose proof (trimStart_head _ _ _ Es) as Ec.
  rewrite (trimEnd_cons _ _ Ec). cbn [trimStart]. rewrite Ec.
  rewrite (trimEnd_cons _ _ Ec), trimEnd_idempotent. reflexivity.
Qed.

Lemma blank_trim (s : list N) :
  forallb isWhiteSpace (trim s) = forallb isWhiteSpace s.
Proof.
  destruct (forallb isWhiteSpace s) eqn:E.
  - apply trim_nil in E. rewrite E. reflexivity.
  - destruct (forallb isWhiteSpace (trim s)) eqn:E'; [|reflexivity].
    apply trim_nil in E'. rewrite trim_idempotent in E'.
    apply trim_nil in E'. congruence.
Qed.

(** X1.  [query.trim()], the value sent as the [query] parameter, is the
    query without a leading and a trailing run of white space: the query is
    [before ++ query.trim() ++ after] with both runs white space only, and
    the trimmed query neither begins nor ends with a white-space unit. *)
Theorem trim_removes_surrounding_white_space (query : list N) :
  (exists before after,
     query = before ++ trim query ++ after
     /\ forallb isWhiteSpace before = true
     /\ forallb isWhiteSpace after = true)
  /\ (forall c rest, trim query = c :: rest -> isWhiteSpace c = false)
  /\ (forall init c, trim query = init ++ [c] -> isWhiteSpace c = false).
Proof.
  split; [|split].
  - destruct (trimStart_split query) as [a [Hs Ha]].
    destruct (trimEnd_split (trimStart query)) as [b [Ht Hb]].
    exists a, b. unfold trim. rewrite <- Ht. auto.
  - intros c rest. unfold trim.
    destruct (trimStart query) as [|x t] eqn:Es; [discriminate|].
    pose proof (trimStart_head _ _ _ Es) as Ex.
    rewrite (trimEnd_cons _ _ Ex). intros [= <- _]. exact Ex.
  - intros init c Hc. unfold trim, trimEnd in Hc.
    apply (f_equal (@rev N)) in Hc.
    rewrite rev_involutive, rev_app_distr in Hc. cbn in Hc.
    exact (trimStart_head _ _ _ Hc).
Qed.

(** ** More on [processResponse] *)

Lemma mapM_length {E A B} (f : A -> completion E B) (l : list A) (r : list B) :
  mapM f l = Normal r -> length r = length l.
Proof.
  revert r. induction l as [|x l IH]; intros r; cbn [mapM].
  - intros [= <-]. reflexivity.
  - destruct (f x) as [y|e]; cbn; [|discriminate].
    destruct (mapM f l) as [ys|e]; cbn; [|discriminate].
    intros [= <-]. cbn. rewrite (IH ys); reflexivity.
Qed.

Lemma mapM_app {E A B} (f : A -> completion E B) (l1 l2 : list A)
    (r1 r2 : list B) :
  mapM f l1 = Normal r1 -> mapM f l2 = Normal r2 ->
  mapM f (l1 ++ l2) = Normal (r1 ++ r2).
Proof.
  revert r1. induction l1 as [|x l1 IH]; intros r1; cbn [mapM app].
  - intros [= <-] H2. exact H2.
  - destruct (f x) as [y|e]; cbn; [|discriminate].
    destruct (mapM f l1) as [ys|e] eqn:E1; cbn; [|discriminate].
    intros [= <-] H2. rewrite (IH ys eq_refl H2). reflexivity.
Qed.

Lemma simplify_tweet_post (tweet post : value) :
  simplify_tweet tweet = Normal post -> is_post post.
Proof.
  destruct (readable_dec tweet) as [Hv | Hv].
  - rewrite (simplify_tweet_readable _ Hv). intros [= <-].
    unfold simplified, is_post. do 6 eexists. split; [reflexivity|].
    unfold or_else.
    destruct (truthy (property tweet (lit "referenced_tweets"))) eqn:Ht;
      [exact Ht | reflexivity].
  - rewrite (simplify_tweet_unreadable _ Hv). discriminate.
Qed.

Lemma mapM_simplify_tweet_posts (tweets posts : list value) :
  mapM simplify_tweet tweets = Normal posts -> Forall is_post posts.
Proof.
  revert posts. induction tweets as [|tweet tweets IH]; intros posts;
    cbn [mapM].
  - intros [= <-]. constructor.
  - destruct (simplify_tweet tweet) as [post|e] eqn:E; cbn; [|discriminate].
    destruct (mapM simplify_tweet tweets) as [ps|e]; cbn; [|discriminate].
    intros [= <-]. constructor; [exact (simplify_tweet_post _ _ E) | auto].
Qed.

(** A normal result is an array of posts, as long as [data] when [data] is
    an array. *)
Lemma processResponse_result (responseData result : value) :
  processResponse responseData = Normal result ->
  exists posts,
    result = VArray posts
    /\ Forall is_post posts
    /\ (forall items,
          get_property responseData (lit "data") = Normal (VArray items) ->
          length posts = length items).
Proof.
  unfold processResponse. destruct (truthy responseData) eqn:Ht; cbn [negb].
  - destruct (get_property responseData (lit "data")) as [data|e] eqn:Hd;
      cbn; [|discriminate].
    destruct (truthy data) eqn:Htd; cbn [negb].
    + destruct data; try discriminate. cbn.
      destruct (mapM simplify_tweet items) as [posts|e] eqn:Hm; cbn;
        [|discriminate].
      intros [= <-]. exists posts. split; [reflexivity|].
      split; [exact (mapM_simplify_tweet_posts _ _ Hm)|].
      intros items' [= <-]. exact (mapM_length _ _ _ Hm).
    + intros [= <-]. exists []. split; [reflexivity|]. split; [constructor|].
      intros items [= ->]. discriminate.
  - intros [= <-]. exists []. split; [reflexivity|]. split; [constructor|].
    intros items Hd. destruct responseData; try discriminate Hd;
      discriminate Ht.
Qed.

Lemma processResponse_not_object (responseData : value) :
  (forall props, responseData <> VObject props) ->
  processResponse responseData = Normal (VArray []).
Proof.
  intros Hno. unfold processResponse.
  destruct (truthy responseData) eqn:Ht; [|reflexivity].
  destruct responseData; try discriminate Ht; try reflexivity.
  exfalso. eapply Hno. reflexivity.
Qed.

(** X2.  A response that is not an object (absent, a primitive or an
    array) has no [data]: [processResponse] returns the empty array. *)
Theorem processResponse_of_non_object (responseData : value) :
  (forall props, responseData <> VObject props) ->
  processResponse responseData = Normal (VArray []).
Proof.
  intros Hno. unfold processResponse.
  destruct (truthy responseData) eqn:Ht; [|reflexivity].
  destruct responseData; try discriminate Ht; try reflexivity.
  exfalso. eapply Hno. reflexivity.
Qed.

(** X3.  Whenever [processResponse] returns, it returns an array, every
    entry of which is an object with exactly the properties [id], [text],
    [createdAt], [authorId], [metrics] and [referencedTweets], the last one
    truthy; when [data] is an array, the result has the length of [data]. *)
Theorem processResponse_returns_posts (responseData result : value) :
  processResponse responseData = Normal result ->
  exists posts,
    result = VArray posts
    /\ Forall is_post posts
    /\ (forall items,
          get_property responseData (lit "data") = Normal (VArray items) ->
          length posts = length items).
Proof.
  unfold processResponse. destruct (truthy responseData) eqn:Ht; cbn [negb].
  - destruct (get_property responseData (lit "data")) as [data|e] eqn:Hd;
      cbn; [|discriminate].
    destruct (truthy data) eqn:Htd; cbn [negb].
    + destruct data; try discriminate. cbn.
      destruct (mapM simplify_tweet items) as [posts|e] eqn:Hm; cbn;
        [|discriminate].
      intros [= <-]. exists posts. split; [reflexivity|].
      split; [exact (mapM_simplify_tweet_posts _ _ Hm)|].
      intros items' [= <-]. exact (mapM_length _ _ _ Hm).
    + intros [= <-]. exists []. split; [reflexivity|]. split; [constructor|].
      intros items [= ->]. discriminate.
  - intros [= <-]. exists []. split; [reflexivity|]. split; [constructor|].
    intros items Hd. destruct responseData; try discriminate Hd;
      discriminate Ht.
Qed.

(** X4.  [processResponse] is not meant for its own output: applied to
    anything it returned it yields the empty array, and the empty array is
    the only value it returns unchanged. *)
Theorem processResponse_twice (responseData result : value) :
  (processResponse responseData = Normal result ->
   processResponse result = Normal (VArray []))
  /\ (processResponse responseData = Normal responseData <->
      responseData = VArray []).
Proof.
  split; [|split].
  - intros Hr. destruct (processResponse_result _ _ Hr) as [posts [-> _]].
    apply processResponse_not_object. discriminate.
  - intros Hr. destruct (processResponse_result _ _ Hr) as [posts [E _]].
    rewrite E in Hr. rewrite processResponse_not_object in Hr
      by discriminate.
    congruence.
  - intros ->. reflexivity.
Qed.

Lemma get_property_data (data : value) :
  get_property (object [(lit "data", data)]) (lit "data") = Normal data.
Proof.
  unfold object, get_property. cbn [list_to_map foldr uncurry fst snd].
  rewrite lookup_insert_eq. reflexivity.
Qed.

(** X5.  Two pages normalise to the concatenation of what each normalises
    to: when [processResponse] returns for [{ data: first }] and for
    [{ data: second }], it returns for [{ data: first ++ second }] the
    first result followed by the second. *)
Theorem processResponse_concat (first second posts1 posts2 : list value) :
  processResponse (object [(lit "data", VArray first)]) = Normal (VArray posts1) ->
  processResponse (object [(lit "data", VArray second)]) = Normal (VArray posts2) ->
  processResponse (object [(lit "data", VArray (first ++ second))])
  = Normal (VArray (posts1 ++ posts2)).
Proof.
  rewrite !(processResponse_data _ _ (get_property_data _)). cbn.
  destruct (mapM simplify_tweet first) as [r1|e] eqn:E1; cbn; [|discriminate].
  destruct (mapM simplify_tweet second) as [r2|e] eqn:E2; cbn; [|discriminate].
  intros [= <-] [= <-]. rewrite (mapM_app _ _ _ _ _ E1 E2). reflexivity.
Qed.

(** X17.  [referenced_tweets || []] looks at truthiness only: a record whose
    [referenced_tweets] is present but falsy ([null], [false], [0], the empty
    string) gets the empty array as well, and any truthy value, array or not,
    is passed through as it is. *)
Theorem processResponse_referenced_tweets
    (props : gmap (list N) value) (referenced : value) :
  props !! lit "referenced_tweets" = Some referenced ->
  processResponse (object [(lit "data", VArray [VObject props])]) =
    Normal (VArray
      [ object
          [ (lit "id", default VUndefined (props !! lit "id"));
            (lit "text", default VUndefined (props !! lit "text"));
            (lit "createdAt", default VUndefined (props !! lit "created_at"));
            (lit "authorId", default VUndefined (props !! lit "author_id"));
            (lit "metrics", default VUndefined (props !! lit "public_metrics"));
            (lit "referencedTweets",
             if truthy referenced then referenced else VArray []) ] ]).
Proof.
  intros Href. rewrite (processResponse_data _ _ (get_property_data _)).
  cbn [truthy call_map mapM].
  rewrite simplify_tweet_readable by (split; discriminate).
  unfold simplified, property, or_else. rewrite Href. reflexivity.
Qed.

(** ** More on the client *)

Lemma contains_middle (a s b t : list N) :
  contains s t -> contains (a ++ s ++ b) t.
Proof.
  intros [x [y ->]]. exists (a ++ x), (y ++ b).
  rewrite <- !app_assoc. reflexivity.
Qed.

Lemma contains_end (a s t : list N) : contains s t -> contains (a ++ s) t.
Proof.
  intros [x [y ->]]. exists (a ++ x), y. rewrite <- !app_assoc. reflexivity.
Qed.

Lemma supplementary_length (error : any) : length (supplementary error) <= 1.
Proof.
  destruct error as [ref message | v]; cbn [supplementary]; [|cbn; lia].
  destruct (found message (lit "401") || found message (lit "Unauthorized"));
    [cbn; lia|].
  destruct (found message (lit "429")); cbn; lia.
Qed.

Section MoreClientProperties.
Context `{Platform}.

(** The [try] block prints nothing, and creates no [Error] when it
    returns. *)
Lemma fetchTweets_try_quiet (this : TwitterApiClient) (query : list N)
    (limit : number) (w : World) :
  console (snd (fetchTweets_try this query limit w)) = console w
  /\ (forall body,
        fst (fetchTweets_try this query limit w) = Normal body ->
        allocated (snd (fetchTweets_try this query limit w)) = allocated w).
Proof.
  rewrite fetchTweets_try_run.
  destruct (forallb isWhiteSpace query); [split; [reflexivity | discriminate]|].
  destruct (number_leb limit zero); [split; [reflexivity | discriminate]|].
  destruct (httpx_fetch (dispatched w) (search_request this query limit))
    as [response|error]; [|split; [reflexivity | discriminate]].
  destruct (ok response); split; try reflexivity; discriminate.
Qed.

(** X6.  A body that cannot be parsed fails like any other fault: when
    validation passes and the response is [ok] but [response.json()]
    rejects, the request has been dispatched and [handleError] prints the
    value of the rejection; [fetchTweets] then throws that value, provided
    [handleError] can classify it (it is not an [Error] whose message has
    no [includes]). *)
Theorem fetchTweets_json_rejection (this : TwitterApiClient)
    (query : list N) (limit : number) (w : World)
    (response : Response) (error : any) :
  forallb isWhiteSpace query = false ->
  number_leb limit zero = false ->
  httpx_fetch (dispatched w) (search_request this query limit)
  = Normal response ->
  ok response = true ->
  json response = Throw error ->
  exists outcome extra w',
    fetchTweets this query limit w = (outcome, w')
    /\ console w' =
         console w
           ++ [Plain (VString (lit "Twitter API Error:")); error] :: extra
    /\ dispatched w' = dispatched w ++ [search_request this query limit]
    /\ (classifiable error = true -> outcome = Throw error).
Proof.
  intros Hq Hl Hfetch Hok Hjson.
  rewrite fetchTweets_catch, fetchTweets_try_run, Hq, Hl, Hfetch, Hok, Hjson.
  eexists _, (supplementary error), _. split; [reflexivity|].
  rewrite handleError_console, handleError_dispatched.
  split; [reflexivity|]. split; [reflexivity|].
  intros Hc. rewrite (handleError_returns _ _ Hc). reflexivity.
Qed.

(** X7.  One call dispatches one request or none: the request of lines
    39-54 when the query has a unit that is not white space and the test
    [limit <= 0] fails, nothing otherwise.  There is no second attempt,
    whatever the transport answers. *)
Theorem fetchTweets_dispatches_at_most_once (this : TwitterApiClient)
    (query : list N) (limit : number) (w : World) :
  dispatched (snd (fetchTweets this query limit w)) =
    dispatched w
      ++ (if negb (forallb isWhiteSpace query) && negb (number_leb limit zero)
          then [search_request this query limit]
          else []).
Proof.
  rewrite fetchTweets_catch, fetchTweets_try_run.
  destruct (forallb isWhiteSpace query); cbn [negb andb snd].
  { rewrite handleError_dispatched, app_nil_r. reflexivity. }
  destruct (number_leb limit zero); cbn [negb andb snd].
  { rewrite handleError_dispatched, app_nil_r. reflexivity. }
  destruct (httpx_fetch (dispatched w) (search_request this query limit)) as [response|error].
  - destruct (ok response).
    + destruct (json response); cbn [snd];
        [|rewrite handleError_dispatched]; reflexivity.
    + cbn [snd]. rewrite handleError_dispatched. reflexivity.
  - cbn [snd]. rewrite handleError_dispatched. reflexivity.
Qed.

(** X8.  [fetchTweets] writes to the console exactly when it throws.  When
    it returns a body, the console is what it was and no [Error] has been
    created; when it throws, the console has grown by the raw-error line for
    the value the [try] block threw, followed by at most one diagnostic, and
    the value thrown to the caller is that value unless [handleError] could
    not classify it. *)
Theorem fetchTweets_logs_iff_throws (this : TwitterApiClient)
    (query : list N) (limit : number) (w : World) :
  (forall body w',
     fetchTweets this query limit w = (Normal body, w') ->
     console w' = console w /\ allocated w' = allocated w)
  /\ (forall thrown w',
        fetchTweets this query limit w = (Throw thrown, w') ->
        exists error extra,
          console w' =
            console w
              ++ [Plain (VString (lit "Twitter API Error:")); error] :: extra
          /\ length extra <= 1
          /\ (classifiable error = true -> thrown = error)).
Proof.
  destruct (fetchTweets_try_quiet this query limit w) as [Hquiet Halloc].
  rewrite fetchTweets_catch.
  destruct (fetchTweets_try this query limit w) as [[body|error] w0];
    cbn [fst snd] in *.
  - split; [|discriminate]. intros body' w' [= <- <-]. eauto.
  - split.
    + intros body w' Hrun. destruct (fst (handleError error w0)); discriminate.
    + intros thrown w' Hrun. exists error, (supplementary error).
      injection Hrun as Hthrown <-.
      rewrite handleError_console, Hquiet.
      split; [reflexivity|]. split; [apply supplementary_length|].
      intros Hc. rewrite (handleError_returns _ _ Hc) in Hthrown. congruence.
Qed.

(** X9.  A validation failure prints the raw error and no diagnostic: the
    call ends with one new [Error], one new console line and no request. *)
Theorem fetchTweets_validation_failure (this : TwitterApiClient)
    (query : list N) (limit : number) (w : World) :
  (forallb isWhiteSpace query = true ->
   fetchTweets this query limit w =
     (Throw (ErrorObject (allocated w) (VString (lit "Query parameter is required"))),
      log [Plain (VString (lit "Twitter API Error:"));
           ErrorObject (allocated w) (VString (lit "Query parameter is required"))]
        (allocate w)))
  /\ (forallb isWhiteSpace query = false ->
      number_leb limit zero = true ->
      fetchTweets this query limit w =
        (Throw (ErrorObject (allocated w)
                  (VString (lit "Limit must be a positive integer"))),
         log [Plain (VString (lit "Twitter API Error:"));
              ErrorObject (allocated w)
                (VString (lit "Limit must be a positive integer"))]
           (allocate w))).
Proof.
  split.
  - intros Hq. rewrite fetchTweets_catch, fetchTweets_try_run, Hq.
    reflexivity.
  - intros Hq Hl. rewrite fetchTweets_catch, fetchTweets_try_run, Hq, Hl.
    reflexivity.
Qed.

(** X10.  A failed response whose status prints with [401] in it, or whose
    reason phrase contains [401] or [Unauthorized], makes [fetchTweets]
    print two lines: the raw error and the authentication diagnostic. *)
Theorem fetchTweets_unauthorized_diagnostic (this : TwitterApiClient)
    (query : list N) (limit : number) (w : World) (response : Response) :
  forallb isWhiteSpace query = false ->
  number_leb limit zero = false ->
  httpx_fetch (dispatched w) (search_request this query limit) = Normal response ->
  ok response = false ->
  contains (Number_toString (status response)) (lit "401")
  \/ contains (statusText response) (lit "401")
  \/ contains (statusText response) (lit "Unauthorized") ->
  exists error w',
    fetchTweets this query limit w = (Throw error, w')
    /\ console w' =
         console w
           ++ [ [Plain (VString (lit "Twitter API Error:")); error];
                [Plain (VString (lit
                   "Authentication failed. Please check your Twitter API credentials."))] ].
Proof.
  intros Hq Hl Hfetch Hok Hin.
  rewrite fetchTweets_catch, fetchTweets_try_run, Hq, Hl, Hfetch, Hok.
  match goal with
  | |- context [handleError ?e ?w0] =>
      destruct (handleError_run e w0 eq_refl) as [w' [Hrun [Hc _]]];
      exists e, w'; rewrite Hrun; split; [reflexivity|]; rewrite Hc
  end.
  cbn [supplementary found call_includes console send allocate].
  match goal with
  | |- context [includes ?m (lit "401") || includes ?m (lit "Unauthorized")] =>
      assert (includes m (lit "401") || includes m (lit "Unauthorized") = true)
        as ->; [|reflexivity]
  end.
  apply orb_true_iff. rewrite !includes_spec.
  destruct Hin as [Hin | [Hin | Hin]].
  - left. apply contains_middle. exact Hin.
  - left. rewrite !app_assoc. apply contains_end. exact Hin.
  - right. rewrite !app_assoc. apply contains_end. exact Hin.
Qed.

(** X11.  A failed response whose message contains neither [401] nor
    [Unauthorized] makes [fetchTweets] print the raw error, followed by the
    rate-limit diagnostic when the message contains [429] and by nothing
    otherwise. *)
Theorem fetchTweets_rate_limit_diagnostic (this : TwitterApiClient)
    (query : list N) (limit : number) (w : World) (response : Response) :
  forallb isWhiteSpace query = false ->
  number_leb limit zero = false ->
  httpx_fetch (dispatched w) (search_request this query limit) = Normal response ->
  ok response = false ->
  let message :=
    lit "Twitter API error: " ++ Number_toString (status response)
      ++ lit " " ++ statusText response in
  ~ contains message (lit "401") ->
  ~ contains message (lit "Unauthorized") ->
  exists w',
    fetchTweets this query limit w =
      (Throw (ErrorObject (allocated w) (VString message)), w')
    /\ (contains message (lit "429") ->
        console w' =
          console w
            ++ [ [Plain (VString (lit "Twitter API Error:"));
                  ErrorObject (allocated w) (VString message)];
                 [Plain (VString (lit
                    "Rate limit exceeded. Please try again later."))] ])
    /\ (~ contains message (lit "429") ->
        console w' =
          console w
            ++ [ [Plain (VString (lit "Twitter API Error:"));
                  ErrorObject (allocated w) (VString message)] ]).
Proof.
  intros Hq Hl Hfetch Hok message H401 Hun.
  rewrite fetchTweets_catch, fetchTweets_try_run, Hq, Hl, Hfetch, Hok.
  fold message.
  destruct (handleError_run (ErrorObject (allocated w) (VString message))
              (allocate (send (search_request this query limit) w)) eq_refl)
    as [w' [Hrun [Hc _]]].
  exists w'. rewrite Hrun. split; [reflexivity|]. rewrite Hc.
  cbn [supplementary found call_includes console send allocate].
  apply includes_false in H401, Hun. rewrite H401, Hun. cbn [orb].
  split; intros H429.
  - apply includes_spec in H429. rewrite H429. reflexivity.
  - apply includes_false in H429. rewrite H429. reflexivity.
Qed.

(** X12.  A rejection of the transport with a value that is not an
    [Error] reaches the caller as that value, after the one raw-error
    line. *)
Theorem fetchTweets_non_Error_rejection (this : TwitterApiClient)
    (query : list N) (limit : number) (w : World) (v : value) :
  forallb isWhiteSpace query = false ->
  number_leb limit zero = false ->
  httpx_fetch (dispatched w) (search_request this query limit) = Throw (Plain v) ->
  fetchTweets this query limit w =
    (Throw (Plain v),
     log [Plain (VString (lit "Twitter API Error:")); Plain v]
       (send (search_request this query limit) w)).
Proof.
  intros Hq Hl Hfetch.
  rewrite fetchTweets_catch, fetchTweets_try_run, Hq, Hl, Hfetch.
  reflexivity.
Qed.

(** X13.  White space around the query makes no difference:
    [fetchTweets(query, limit)] behaves as [fetchTweets(query.trim(),
    limit)], in outcome, console and request. *)
Theorem fetchTweets_ignores_surrounding_white_space (this : TwitterApiClient)
    (query : list N) (limit : number) (w : World) :
  fetchTweets this query limit w = fetchTweets this (trim query) limit w.
Proof.
  rewrite !fetchTweets_catch, !fetchTweets_try_run, blank_trim.
  unfold search_request. rewrite trim_idempotent. reflexivity.
Qed.

(** X14.  A limit that is not a number is not rejected: [NaN <= 0] is
    false, so with a query that passes, the request goes out with
    [max_results] set to the text of [NaN]. *)
Theorem fetchTweets_accepts_NaN (this : TwitterApiClient)
    (query : list N) (w : World) :
  forallb isWhiteSpace query = false ->
  dispatched (snd (fetchTweets this query NaN w)) =
    dispatched w
      ++ [ {| url := API_BASE_URL this ++ lit "/tweets/search/recent?"
                ++ URLSearchParams_toString
                     [ (lit "query", trim query);
                       (lit "max_results", Number_toString NaN);
                       (lit "tweet.fields",
                        lit "created_at,author_id,public_metrics,referenced_tweets") ];
              headers := [ (lit "Authorization", authorizationHeader this);
                           (lit "Content-Type", lit "application/json") ] |} ].
Proof.
  intros Hq. rewrite fetchTweets_catch, fetchTweets_try_run, Hq.
  cbn [number_leb zero]. fold (search_request this query NaN).
  destruct (httpx_fetch (dispatched w) (search_request this query NaN)) as [response|error].
  - destruct (ok response).
    + destruct (json response); cbn [snd];
        [|rewrite handleError_dispatched]; reflexivity.
    + cbn [snd]. rewrite handleError_dispatched. reflexivity.
  - cbn [snd]. rewrite handleError_dispatched. reflexivity.
Qed.

(** X15.  [handleError] never touches the network and never removes a
    console line: it adds one or two calls of [console.error] and dispatches
    nothing.  When it returns it has created no [Error]; when it throws (the
    TypeError of line 78), it has printed the raw error only and created
    that one TypeError. *)
Theorem handleError_only_logs (error : any) (w : World) :
  exists added,
    console (snd (handleError error w)) = console w ++ added
    /\ 1 <= length added <= 2
    /\ dispatched (snd (handleError error w)) = dispatched w
    /\ (fst (handleError error w) = Normal tt ->
        allocated (snd (handleError error w)) = allocated w)
    /\ (forall fault,
          fst (handleError error w) = Throw fault ->
          length added = 1
          /\ allocated (snd (handleError error w)) = S (allocated w)
          /\ instanceof_Error fault = true).
Proof.
  exists ([Plain (VString (lit "Twitter API Error:")); error]
            :: supplementary error).
  pose proof (supplementary_length error) as Hlen.
  split; [apply handleError_console|]. split; [cbn [length]; lia|].
  split; [apply handleError_dispatched|].
  destruct (classifiable error) eqn:Hc.
  - destruct (handleError_run error w Hc) as [w' [-> [_ [_ Ha]]]].
    split; [intros _; exact Ha | discriminate].
  - destruct error as [ref message | v]; [|discriminate].
    destruct (handleError_fault ref message w Hc) as [-> ->].
    split; [discriminate|]. intros fault [= <-]. auto.
Qed.

(** X16.  A client made by the constructor sends the configured token:
    with a non-empty token, construction returns a client and every request
    that client dispatches goes to [https://api.twitter.com/2/tweets/search/recent]
    with the header [Authorization: Bearer <token>]. *)
Theorem constructed_client_sends_token (token : list N) (w : World) :
  TWITTER_BEARER_TOKEN = Some token ->
  token <> [] ->
  exists this,
    constructor w = (Normal this, w)
    /\ forall query limit w1,
         forallb isWhiteSpace query = false ->
         number_leb limit zero = false ->
         dispatched (snd (fetchTweets this query limit w1)) =
           dispatched w1
             ++ [ {| url := lit "https://api.twitter.com/2"
                       ++ lit "/tweets/search/recent?"
                       ++ URLSearchParams_toString
                            [ (lit "query", trim query);
                              (lit "max_results", Number_toString limit);
                              (lit "tweet.fields",
                               lit "created_at,author_id,public_metrics,referenced_tweets") ];
                     headers := [ (lit "Authorization", lit "Bearer " ++ token);
                                  (lit "Content-Type", lit "application/json") ] |} ].
Proof.
  intros Htoken Hne. eexists. split.
  - unfold constructor, mbind, M_bind, mret, M_ret, new_Error, throw.
    rewrite Htoken. destruct token; [congruence | reflexivity].
  - intros query limit w1 Hq Hl.
    rewrite fetchTweets_catch, fetchTweets_try_run, Hq, Hl.
    match goal with
    | |- context [httpx_fetch ?r] => destruct (httpx_fetch r) as [response|error]
    end.
    + destruct (ok response).
      * destruct (json response); cbn [snd];
          [|rewrite handleError_dispatched]; reflexivity.
      * cbn [snd]. rewrite handleError_dispatched. reflexivity.
    + cbn [snd]. rewrite handleError_dispatched. reflexivity.
Qed.

(** X19.  What [fetchTweets] returns is not what [processResponse] makes of
    the body: for a body that [processResponse] accepts, the two coincide
    only when the body is the empty array. *)
Theorem fetchTweets_result_is_not_processed (this : TwitterApiClient)
    (query : list N) (limit : number) (w : World)
    (response : Response) (body posts : value) :
  forallb isWhiteSpace query = false ->
  number_leb limit zero = false ->
  httpx_fetch (dispatched w) (search_request this query limit) = Normal response ->
  ok response = true ->
  json response = Normal body ->
  processResponse body = Normal posts ->
  fst (fetchTweets this query limit w) = Normal posts <-> body = VArray [].
Proof.
  intros Hq Hl Hfetch Hok Hjson Hposts.
  rewrite fetchTweets_catch, fetchTweets_try_run, Hq, Hl, Hfetch, Hok, Hjson.
  cbn [fst]. split.
  - intros [= ->]. destruct (processResponse_result _ _ Hposts) as [ps [E _]].
    rewrite E in Hposts.
    rewrite processResponse_not_object in Hposts by discriminate. congruence.
  - intros ->. rewrite processResponse_not_object in Hposts by discriminate.
    injection Hposts as <-. reflexivity.
Qed.

End MoreClientProperties.

(** ** The further properties on the sample inputs *)

Lemma trim_removes_surrounding_white_space_witness :
  isWhiteSpace 35 = false /\ isWhiteSpace 116 = false.
Proof.
  split.
  - apply (proj1 (proj2 (trim_removes_surrounding_white_space (lit "  #test ")))
             35%N (lit "test")).
    vm_compute. reflexivity.
  - apply (proj2 (proj2 (trim_removes_surrounding_white_space (lit "  #test ")))
             (lit "#tes") 116%N).
    vm_compute. reflexivity.
Defined.

Lemma processResponse_of_non_object_witness :
  processResponse (VArray [VObject first_tweet]) = Normal (VArray []).
Proof.
  apply (processResponse_of_non_object (VArray [VObject first_tweet])).
  intros props. discriminate.
Defined.

Lemma processResponse_returns_posts_witness :
  exists posts,
    VArray (List.map simplified [VObject first_tweet; VObject second_tweet])
    = VArray posts
    /\ Forall is_post posts
    /\ (forall items,
          get_property mockRawResponse (lit "data") = Normal (VArray items) ->
          length posts = length items).
Proof.
  apply (processResponse_returns_posts mockRawResponse).
  vm_compute. reflexivity.
Defined.

Lemma processResponse_twice_witness :
  processResponse
    (VArray (List.map simplified [VObject first_tweet; VObject second_tweet]))
  = Normal (VArray []).
Proof.
  apply (proj1 (processResponse_twice mockRawResponse _)).
  vm_compute. reflexivity.
Defined.

Lemma processResponse_concat_witness :
  processResponse
    (object [(lit "data", VArray ([VObject first_tweet] ++ [VObject second_tweet]))])
  = Normal (VArray ([simplified (VObject first_tweet)]
                      ++ [simplified (VObject second_tweet)])).
Proof.
  apply (processResponse_concat [VObject first_tweet] [VObject second_tweet]);
    vm_compute; reflexivity.
Defined.

Lemma processResponse_referenced_tweets_witness :
  processResponse
    (object [(lit "data",
              VArray [VObject (<[lit "referenced_tweets" := VNull]> second_tweet)])])
  = Normal (VArray
      [ object
          [ (lit "id", VString (lit "12346"));
            (lit "text", VString (lit "Another tweet"));
            (lit "createdAt", VString (lit "2023-08-01T12:05:00Z"));
            (lit "authorId", VString (lit "67891"));
            (lit "metrics", metrics 15 8 3 2);
            (lit "referencedTweets", VArray []) ] ]).
Proof.
  assert (<[lit "referenced_tweets" := VNull]> second_tweet
            !! lit "referenced_tweets" = Some VNull) as Href
    by (vm_compute; reflexivity).
  pose proof (processResponse_referenced_tweets _ _ Href) as E.
  vm_compute in E. vm_compute. exact E.
Defined.

Lemma fetchTweets_json_rejection_witness :
  exists extra w',
    fetchTweets (H := configured (fun _ _ => Normal unparseable))
      a_client (lit "test") ten empty_world
    = (Throw syntax_error, w')
    /\ console w' =
         [Plain (VString (lit "Twitter API Error:")); syntax_error] :: extra
    /\ dispatched w' =
         [search_request (H := configured (fun _ _ => Normal unparseable))
            a_client (lit "test") ten].
Proof.
  destruct (fetchTweets_json_rejection
              (H := configured (fun _ _ => Normal unparseable))
              a_client (lit "test") ten empty_world unparseable syntax_error)
    as [outcome [extra [w' [Hrun [Hconsole [Hsent Hthrown]]]]]];
    try reflexivity.
  exists extra, w'. rewrite Hrun, (Hthrown eq_refl). auto.
Defined.

Lemma fetchTweets_logs_iff_throws_witness :
  (console (snd (fetchTweets (H := configured (fun _ _ => Normal success))
                   a_client (lit "test") ten empty_world)) = []
   /\ allocated (snd (fetchTweets (H := configured (fun _ _ => Normal success))
                        a_client (lit "test") ten empty_world)) = 0)
  /\ (exists error extra,
        console (snd (fetchTweets
                        (H := configured (fun _ _ => Throw network_error))
                        a_client (lit "test") ten empty_world))
        = [] ++ [Plain (VString (lit "Twitter API Error:")); error] :: extra
        /\ length extra <= 1
        /\ (classifiable error = true -> network_error = error)).
Proof.
  split.
  - apply (proj1 (fetchTweets_logs_iff_throws
                    (H := configured (fun _ _ => Normal success))
                    a_client (lit "test") ten empty_world) mockRawResponse).
    vm_compute. reflexivity.
  - apply (proj2 (fetchTweets_logs_iff_throws
                    (H := configured (fun _ _ => Throw network_error))
                    a_client (lit "test") ten empty_world) network_error).
    vm_compute. reflexivity.
Defined.

Lemma fetchTweets_validation_failure_witness :
  fetchTweets (H := configured (fun _ _ => Normal success))
    a_client (lit "   ") ten empty_world
  = (Throw (ErrorObject 0 (VString (lit "Query parameter is required"))),
     log [Plain (VString (lit "Twitter API Error:"));
          ErrorObject 0 (VString (lit "Query parameter is required"))]
       (allocate empty_world))
  /\ fetchTweets (H := configured (fun _ _ => Normal success))
       a_client (lit "test") zero empty_world
     = (Throw (ErrorObject 0 (VString (lit "Limit must be a positive integer"))),
        log [Plain (VString (lit "Twitter API Error:"));
             ErrorObject 0 (VString (lit "Limit must be a positive integer"))]
          (allocate empty_world)).
Proof.
  split.
  - apply (proj1 (fetchTweets_validation_failure
                    (H := configured (fun _ _ => Normal success))
                    a_client (lit "   ") ten empty_world)).
    reflexivity.
  - apply (proj2 (fetchTweets_validation_failure
                    (H := configured (fun _ _ => Normal success))
                    a_client (lit "test") zero empty_world));
      reflexivity.
Defined.

Lemma fetchTweets_unauthorized_diagnostic_witness :
  exists error w',
    fetchTweets (H := configured (fun _ _ => Normal unauthorized))
      a_client (lit "test") ten empty_world = (Throw error, w')
    /\ console w' =
         [] ++ [ [Plain (VString (lit "Twitter API Error:")); error];
                 [Plain (VString (lit
                    "Authentication failed. Please check your Twitter API credentials."))] ].
Proof.
  apply (fetchTweets_unauthorized_diagnostic
           (H := configured (fun _ _ => Normal unauthorized))
           a_client (lit "test") ten empty_world unauthorized);
    try reflexivity.
  left. apply includes_spec. vm_compute. reflexivity.
Defined.

Lemma fetchTweets_rate_limit_diagnostic_witness :
  exists w',
    fetchTweets (H := configured (fun _ _ => Normal too_many_requests))
      a_client (lit "test") ten empty_world
    = (Throw (ErrorObject 0 (VString (lit "Twitter API error: 429 Too Many Requests"))),
       w')
    /\ console w' =
         [ [Plain (VString (lit "Twitter API Error:"));
            ErrorObject 0 (VString (lit "Twitter API error: 429 Too Many Requests"))];
           [Plain (VString (lit
              "Rate limit exceeded. Please try again later."))] ].
Proof.
  destruct (fetchTweets_rate_limit_diagnostic
              (H := configured (fun _ _ => Normal too_many_requests))
              a_client (lit "test") ten empty_world too_many_requests)
    as [w' [Hrun [H429 _]]]; try reflexivity.
  - apply includes_false. vm_compute. reflexivity.
  - apply includes_false. vm_compute. reflexivity.
  - exists w'. split; [exact Hrun|]. apply H429.
    apply includes_spec. vm_compute. reflexivity.
Defined.

Lemma fetchTweets_non_Error_rejection_witness :
  fetchTweets
    (H := configured (fun _ _ => Throw (Plain (VString (lit "timeout 401")))))
    a_client (lit "test") ten empty_world
  = (Throw (Plain (VString (lit "timeout 401"))),
     log [Plain (VString (lit "Twitter API Error:"));
          Plain (VString (lit "timeout 401"))]
       (send (search_request
                (H := configured
                        (fun _ _ => Throw (Plain (VString (lit "timeout 401")))))
                a_client (lit "test") ten) empty_world)).
Proof.
  apply (fetchTweets_non_Error_rejection
           (H := configured (fun _ _ => Throw (Plain (VString (lit "timeout 401")))))
           a_client (lit "test") ten empty_world (VString (lit "timeout 401")));
    reflexivity.
Defined.

Lemma fetchTweets_accepts_NaN_witness :
  dispatched (snd (fetchTweets (H := configured (fun _ _ => Normal success))
                     a_client (lit "test") NaN empty_world))
  = [ {| url := lit "https://api.twitter.com/2" ++ lit "/tweets/search/recent?"
             ++ urlencoded
                  [ (lit "query", lit "test");
                    (lit "max_results", lit "NaN");
                    (lit "tweet.fields",
                     lit "created_at,author_id,public_metrics,referenced_tweets") ];
         headers := [ (lit "Authorization", lit "Bearer secret");
                      (lit "Content-Type", lit "application/json") ] |} ].
Proof.
  apply (fetchTweets_accepts_NaN (H := configured (fun _ _ => Normal success))
           a_client (lit "test") empty_world).
  reflexivity.
Defined.

Lemma handleError_only_logs_witness :
  exists added,
    console (snd (handleError (H := configured (fun _ _ => Normal success))
                    numbered_error empty_world)) = [] ++ added
    /\ length added = 1
    /\ allocated (snd (handleError
                         (H := configured (fun _ _ => Normal success))
                         numbered_error empty_world)) = 1.
Proof.
  destruct (handleError_only_logs
              (H := configured (fun _ _ => Normal success))
              numbered_error empty_world)
    as [added [Hconsole [_ [_ [_ Hthrow]]]]].
  exists added. split; [exact Hconsole|].
  destruct (Hthrow (ErrorObject 0
                      (VString (lit "error.message.includes is not a function"))))
    as [Hlen [Halloc _]]; [vm_compute; reflexivity|].
  split; [exact Hlen | exact Halloc].
Defined.

Lemma constructed_client_sends_token_witness :
  exists this,
    constructor (H := configured (fun _ _ => Normal success)) empty_world
    = (Normal this, empty_world)
    /\ authorizationHeader this = lit "Bearer secret".
Proof.
  destruct (constructed_client_sends_token
              (H := configured (fun _ _ => Normal success))
              (lit "secret") empty_world)
    as [this [Hnew _]]; [reflexivity | discriminate |].
  exists this. split; [exact Hnew|].
  assert (constructor (H := configured (fun _ _ => Normal success)) empty_world
          = (Normal a_client, empty_world)) as E by reflexivity.
  rewrite E in Hnew. injection Hnew as <-. reflexivity.
Defined.

Lemma fetchTweets_result_is_not_processed_witness :
  fst (fetchTweets (H := configured (fun _ _ => Normal success))
         a_client (lit "#test") ten empty_world)
  = Normal (VArray (List.map simplified
                      [VObject first_tweet; VObject second_tweet]))
  <-> mockRawResponse = VArray [].
Proof.
  apply (fetchTweets_result_is_not_processed
           (H := configured (fun _ _ => Normal success))
           a_client (lit "#test") ten empty_world success mockRawResponse);
    reflexivity.
Defined.
